(** * StyleVerse front end: the API client and the auth page

    A shallow embedding of [frontend/src/services/api.ts] and of the two
    submit handlers of [frontend/src/pages/Auth.tsx].

    - JavaScript values that travel through the client (request bodies,
      parsed response bodies, filter objects) are the inductive [JS.value].
    - Browser state (local storage, [window.location.href], the React state
      of the auth page) is a record [world]; every observable action is also
      appended to an event log, so that statements such as "no request was
      issued" or "nothing was written" can be made.
    - An [async] function is a computation [M A]: it reads the environment
      (the configured base URL, the transport and [fetch]), threads the world
      and ends fulfilled or rejected.  [await] is the monadic bind; a single
      call is run to completion, interleavings of several pending calls are
      outside the model.
    - axios and the browser built-ins are not part of the repository; only
      the part of their behaviour that the source relies on is modelled
      (header merge, the interceptor chain, [URLSearchParams], [JSON.stringify],
      [ToString]).  A number is represented by what the client observes of it
      (its text, its truthiness, whether it is finite); strings are byte
      strings; local storage can be read, except where a statement says
      otherwise. *)

From Stdlib Require Import ZArith String Ascii List.
From stdpp Require Import base strings gmap list pretty.

Open Scope string_scope.
Set Warnings "-register-all".

(** ** JavaScript values *)

Module JS.

(* A number (a double), by the three observations that the client makes of
   it: [num_text] is Number::toString, such as 1, 0.5, 1e+21 or NaN;
   [num_truthy] is ToBoolean, false for 0, -0 and NaN; [num_finite] is false
   for NaN and the infinities, which JSON.stringify writes as null. *)
Record number := {
  num_text : string;
  num_truthy : bool;
  num_finite : bool
}.

(* The finite number other than zero whose text is [text]. *)
Definition num (text : string) : number :=
  {| num_text := text; num_truthy := true; num_finite := true |}.

Definition zero : number :=
  {| num_text := "0"; num_truthy := false; num_finite := true |}.

Definition NaN : number :=
  {| num_text := "NaN"; num_truthy := false; num_finite := false |}.

Inductive value : Type :=
| VUndefined
| VNull
| VBool (b : bool)
| VNum (x : number)
| VStr (s : string)
| VArr (items : list value)
| VObj (props : list (string * value)).
(* [VObj props]: the own enumerable properties in the order in which
   [Object.entries] and [JSON.stringify] enumerate them; keys are distinct. *)

Definition nonempty (s : string) : bool :=
  match s with EmptyString => false | String _ _ => true end.

(* ToBoolean *)
Definition truthy (v : value) : bool :=
  match v with
  | VUndefined | VNull => false
  | VBool b => b
  | VNum x => num_truthy x
  | VStr s => nonempty s
  | VArr _ | VObj _ => true
  end.

Fixpoint join (sep : string) (l : list string) : string :=
  match l with
  | [] => EmptyString
  | [x] => x
  | x :: rest => x +:+ sep +:+ join sep rest
  end.

(* ToString *)
Fixpoint to_string (v : value) : string :=
  match v with
  | VUndefined => "undefined"
  | VNull => "null"
  | VBool b => if b then "true" else "false"
  | VNum x => num_text x
  | VStr s => s
  | VArr items =>
      join "," (map (fun x => match x with
                              | VUndefined | VNull => EmptyString
                              | _ => to_string x
                              end) items)
  | VObj _ => "[object Object]"
  end.

(* The double quote and the backslash, written by their decimal codes. *)
Definition dquote : ascii := "034"%char.
Definition backslash : ascii := "092"%char.
Definition dq : string := String dquote EmptyString.

Definition hex_digit (n : nat) : ascii :=
  match n with
  | 0 => "0" | 1 => "1" | 2 => "2" | 3 => "3" | 4 => "4" | 5 => "5"
  | 6 => "6" | 7 => "7" | 8 => "8" | 9 => "9" | 10 => "a" | 11 => "b"
  | 12 => "c" | 13 => "d" | 14 => "e" | _ => "f"
  end%char.

(* One code unit of QuoteJSONString. *)
Definition quote_char (c : ascii) : string :=
  let n := nat_of_ascii c in
  if (n =? 34)%nat then String backslash dq
  else if (n =? 92)%nat then String backslash (String backslash EmptyString)
  else if (n =? 8)%nat then String backslash "b"
  else if (n =? 12)%nat then String backslash "f"
  else if (n =? 10)%nat then String backslash "n"
  else if (n =? 13)%nat then String backslash "r"
  else if (n =? 9)%nat then String backslash "t"
  else if (n <? 32)%nat then
    String backslash ("u00" +:+ String (hex_digit (n / 16))
                                  (String (hex_digit (n mod 16)) EmptyString))
  else String c EmptyString.

Fixpoint quote_body (s : string) : string :=
  match s with
  | EmptyString => EmptyString
  | String c rest => quote_char c +:+ quote_body rest
  end.

Definition quote (s : string) : string := dq +:+ quote_body s +:+ dq.

(* JSON.stringify(v): [None] is the result [undefined]. *)
Fixpoint stringify (v : value) : option string :=
  match v with
  | VUndefined => None
  | VNull => Some "null"
  | VBool b => Some (if b then "true" else "false")
  | VNum x => Some (if num_finite x then num_text x else "null")
  | VStr s => Some (quote s)
  | VArr items =>
      Some ("[" +:+ join "," (map (fun x => default "null" (stringify x)) items)
                +:+ "]")
  | VObj props =>
      Some ("{" +:+ join ","
                  (omap (fun kv => match stringify (snd kv) with
                                   | Some s => Some (quote (fst kv) +:+ ":" +:+ s)
                                   | None => None
                                   end) props)
                +:+ "}")
  end.

(* What [localStorage.setItem] stores for the result of [JSON.stringify]. *)
Definition stringified (v : value) : string :=
  match stringify v with
  | Some s => s
  | None => "undefined"
  end.

Fixpoint lookup_prop (k : string) (props : list (string * value)) : value :=
  match props with
  | [] => VUndefined
  | (k', v) :: rest => if String.eqb k k' then v else lookup_prop k rest
  end.

(* [v.k] (also one property of a destructuring pattern) for a name [k] that
   is neither an array index nor ["length"]: the names used by the source are
   data, token, userData, user and message.  [None] is the TypeError raised
   for [undefined] and [null]. *)
Definition get_prop (v : value) (k : string) : option value :=
  match v with
  | VUndefined | VNull => None
  | VObj props => Some (lookup_prop k props)
  | VBool _ | VNum _ | VStr _ | VArr _ => Some VUndefined
  end.

End JS.
Export JS.

(** ** Requests, responses, errors *)

Inductive method := GET | POST | PUT | DELETE.

Record File := { file_name : string; file_content : string }.

Inductive form_entry :=
| FormString (s : string)
| FormFile (f : File).

(* The [FormData] object: its entry list. *)
Definition FormData := list (string * form_entry).

(* What a caller hands over as a request body ([requestData: any]). *)
Inductive payload :=
| NoData
| JsonData (v : value)
| FormDataPayload (fd : FormData).

(* [requestData instanceof FormData] *)
Definition instanceof_FormData (p : payload) : bool :=
  match p with FormDataPayload _ => true | _ => false end.

(* The axios request config, as far as the source sets it. *)
Record config := {
  cfg_method : method;
  cfg_baseURL : option string;
  cfg_url : string;
  cfg_headers : gmap string string;
  cfg_data : payload
}.

(* The axios response object: [response.status], [response.data]. *)
Record response := { status : Z; data : value }.

(* A rejection value: whether it is an [Error] instance, its [message], and
   [error.response] of an axios error that carries an HTTP response. *)
Record js_error := {
  instanceof_Error : bool;
  message : string;
  err_response : option response
}.

(* [new Error(msg)] *)
Definition new_Error (msg : string) : js_error :=
  {| instanceof_Error := true; message := msg; err_response := None |}.

(* The TypeError of a property read on [undefined] or [null]; the text of its
   message is engine specific. *)
Definition TypeError (what : string) : js_error :=
  new_Error ("Cannot read properties of undefined or null: " +:+ what).

Inductive outcome (A : Type) : Type :=
| Fulfilled (a : A)
| Rejected (e : js_error).
Arguments Fulfilled {A} a.
Arguments Rejected {A} e.

(* [fetch]: the request it is called with and the [Response] it resolves to;
   [fr_json] is the outcome of [response.json()]. *)
Record fetch_request := {
  fq_url : string;
  fq_method : method;
  fq_headers : gmap string string;
  fq_body : string
}.

Record fetch_response := { fr_ok : bool; fr_json : outcome value }.

(** ** The environment and the world *)

Record env := {
  VITE_API_URL : option string;                 (* import.meta.env.VITE_API_URL *)
  transport : config -> outcome response;       (* the axios adapter and the backend behind it *)
  fetch_backend : fetch_request -> outcome fetch_response
}.

Inductive event :=
| EvRequest (c : config)                  (* a request handed to the axios transport *)
| EvFetch (q : fetch_request)             (* a call of fetch *)
| EvSetItem (k v : string)                (* localStorage.setItem *)
| EvRemoveItem (k : string)               (* localStorage.removeItem *)
| EvConsole (label : string)              (* console.log / console.error *)
| EvToast (title description : string) (destructive : bool)
| EvNavigate (path : string)              (* react-router navigate *)
| EvSetLoading (b : bool)
| EvSetUser (v : value).

Record world := {
  localStorage : gmap string string;
  location_href : string;                  (* window.location.href *)
  loading : bool;                          (* useState(false) of the auth page *)
  user : value;                            (* useState() of the auth page *)
  log : list event                         (* newest event first *)
}.

Definition emit (ev : event) (w : world) : world :=
  {| localStorage := localStorage w; location_href := location_href w;
     loading := loading w; user := user w; log := ev :: log w |}.

Definition with_storage (f : gmap string string -> gmap string string)
    (w : world) : world :=
  {| localStorage := f (localStorage w); location_href := location_href w;
     loading := loading w; user := user w; log := log w |}.

Definition with_href (h : string) (w : world) : world :=
  {| localStorage := localStorage w; location_href := h;
     loading := loading w; user := user w; log := log w |}.

Definition with_loading (b : bool) (w : world) : world :=
  {| localStorage := localStorage w; location_href := location_href w;
     loading := b; user := user w; log := log w |}.

Definition with_user (v : value) (w : world) : world :=
  {| localStorage := localStorage w; location_href := location_href w;
     loading := loading w; user := v; log := log w |}.

(** ** Promises: a reader, state and error monad *)

Definition M (A : Type) : Type := env -> world -> outcome A * world.

Definition ret {A} (a : A) : M A := fun _ w => (Fulfilled a, w).

(* [throw e] and [Promise.reject(e)] *)
Definition throw {A} (e : js_error) : M A := fun _ w => (Rejected e, w).

(* [const x = await m; k x] *)
Definition bind {A B} (m : M A) (k : A -> M B) : M B :=
  fun E w =>
    match m E w with
    | (Fulfilled a, w') => k a E w'
    | (Rejected e, w') => (Rejected e, w')
    end.

Notation "'await' x <- m ; k" := (bind m (fun x => k))
  (at level 10, x name, m at level 100, k at level 200).
Notation "'exec' m ; k" := (bind m (fun _ => k))
  (at level 10, m at level 100, k at level 200).

(* [promise.then(onFulfilled, onRejected)] *)
Definition then_ {A B} (m : M A) (onFulfilled : A -> M B)
    (onRejected : js_error -> M B) : M B :=
  fun E w =>
    match m E w with
    | (Fulfilled a, w') => onFulfilled a E w'
    | (Rejected e, w') => onRejected e E w'
    end.

(* [try { m } catch (error) { h error }] *)
Definition try_catch {A} (m : M A) (h : js_error -> M A) : M A :=
  then_ m ret h.

(* [try { m } finally { f }] *)
Definition try_finally {A} (m : M A) (f : M unit) : M A :=
  fun E w =>
    match m E w with
    | (r, w') =>
        match f E w' with
        | (Fulfilled _, w'') => (r, w'')
        | (Rejected e, w'') => (Rejected e, w'')
        end
    end.

Definition ask : M env := fun E w => (Fulfilled E, w).
Definition effect (f : world -> world) : M unit := fun _ w => (Fulfilled tt, f w).

(* A property read that raises the TypeError on [undefined] and [null]. *)
Definition prop (v : value) (k : string) : M value :=
  match get_prop v k with
  | Some x => ret x
  | None => throw (TypeError k)
  end.

Definition console (label : string) : M unit := effect (emit (EvConsole label)).

(** ** localStorage and window.location *)

Definition getItem (k : string) : M (option string) :=
  fun _ w => (Fulfilled (localStorage w !! k), w).

Definition setItem (k v : string) : M unit :=
  effect (fun w => emit (EvSetItem k v) (with_storage (insert k v) w)).

Definition removeItem (k : string) : M unit :=
  effect (fun w => emit (EvRemoveItem k) (with_storage (delete k) w)).

(* [localStorage.getItem] in a browser that refuses access to the storage of
   the page: the read throws [e] (a SecurityError). *)
Definition getItem_refused (e : js_error) (k : string) : M (option string) :=
  throw e.

(* [window.location.href = h] *)
Definition set_location_href (h : string) : M unit := effect (with_href h).

(* The truthiness of what [localStorage.getItem] returned. *)
Definition truthy_item (t : option string) : bool :=
  match t with
  | Some s => nonempty s
  | None => false
  end.

(* [`${token}`] for what [getItem] returned. *)
Definition template_item (t : option string) : string :=
  match t with
  | Some s => s
  | None => "null"
  end.

(** ** The shared client: api.ts, lines 3-38 *)

(* [import.meta.env.VITE_API_URL || "http://localhost:8000/api"] *)
Definition API_URL (E : env) : string :=
  if truthy_item (VITE_API_URL E)
  then template_item (VITE_API_URL E)
  else "http://localhost:8000/api".

(* [headers: { "Content-Type": "application/json" }] of [axios.create] *)
Definition default_headers : gmap string string :=
  {[ "Content-Type" := "application/json" ]}.

(* [config.headers.k = v] *)
Definition set_header (k v : string) (c : config) : config :=
  {| cfg_method := cfg_method c; cfg_baseURL := cfg_baseURL c;
     cfg_url := cfg_url c; cfg_headers := <[k := v]> (cfg_headers c);
     cfg_data := cfg_data c |}.

(* The adapter: the request leaves the client. *)
Definition dispatch (c : config) : M response :=
  fun E w => (transport E c, emit (EvRequest c) w).

(* api.interceptors.request.use(...), first handler; [read] is
   [localStorage.getItem]. *)
Definition request_fulfilled_with (read : string -> M (option string))
    (c : config) : M config :=
  await token <- read "token";
  if truthy_item token
  then ret (set_header "Authorization" ("Bearer " +:+ template_item token) c)
  else ret c.

(* The handler where local storage can be read. *)
Definition request_fulfilled : config -> M config :=
  request_fulfilled_with getItem.

(* api.interceptors.request.use(...), second handler *)
Definition request_rejected (error : js_error) : M config := throw error.

(* api.interceptors.response.use(...), first handler *)
Definition response_fulfilled (r : response) : M response := ret r.

(* [error.response && error.response.status === 401] *)
Definition is_401 (error : js_error) : bool :=
  match err_response error with
  | Some r => (status r =? 401)%Z
  | None => false
  end.

(* api.interceptors.response.use(...), second handler *)
Definition response_rejected (error : js_error) : M response :=
  exec (if is_401 error
        then exec removeItem "token";
             exec removeItem "user";
             set_location_href "/auth"
        else ret tt);
  throw error.

Module api.

(* A call on the instance: per-call headers are merged over the instance
   defaults, then the promise chain of axios runs: request interceptor,
   adapter, response interceptor. *)
Definition request_with (read : string -> M (option string)) (m : method)
    (url : string) (d : payload) (headers : gmap string string) : M response :=
  await E <- ask;
  let c := {| cfg_method := m; cfg_baseURL := Some (API_URL E); cfg_url := url;
              cfg_headers := headers ∪ default_headers; cfg_data := d |} in
  then_ (then_ (then_ (ret c) (request_fulfilled_with read) request_rejected)
               dispatch throw)
        response_fulfilled response_rejected.

(* The call where local storage can be read. *)
Definition request : method -> string -> payload -> gmap string string -> M response :=
  request_with getItem.

Definition get (url : string) : M response := request GET url NoData ∅.
Definition post (url : string) (d : payload) : M response := request POST url d ∅.
Definition post_with (url : string) (d : payload) (headers : gmap string string)
  : M response := request POST url d headers.
Definition put (url : string) (d : payload) : M response := request PUT url d ∅.
Definition delete (url : string) : M response := request DELETE url NoData ∅.

End api.

Module axios.

(* A call on the axios default export: no base URL, no instance headers, no
   interceptor is registered on it. *)
Definition post (url : string) (d : payload) (headers : gmap string string)
  : M response :=
  dispatch {| cfg_method := POST; cfg_baseURL := None; cfg_url := url;
              cfg_headers := headers; cfg_data := d |}.

End axios.

(** ** URLSearchParams *)

Module URLSearchParams.

(* The list of name-value pairs of the object. *)
Definition t := list (string * string).

(* [params.append(name, value)]: the value is converted with ToString. *)
Definition append (params : t) (name : string) (v : value) : t :=
  (params ++ [(name, to_string v)])%list.

Definition upper_hex (n : nat) : ascii :=
  match n with
  | 0 => "0" | 1 => "1" | 2 => "2" | 3 => "3" | 4 => "4" | 5 => "5"
  | 6 => "6" | 7 => "7" | 8 => "8" | 9 => "9" | 10 => "A" | 11 => "B"
  | 12 => "C" | 13 => "D" | 14 => "E" | _ => "F"
  end%char.

(* Bytes that the application/x-www-form-urlencoded serializer leaves as
   they are: * - . _ and the ASCII letters and digits. *)
Definition unreserved (c : ascii) : bool :=
  let n := nat_of_ascii c in
  (n =? 42)%nat || (n =? 45)%nat || (n =? 46)%nat || (n =? 95)%nat
  || ((48 <=? n)%nat && (n <=? 57)%nat)
  || ((65 <=? n)%nat && (n <=? 90)%nat)
  || ((97 <=? n)%nat && (n <=? 122)%nat).

Definition encode_byte (c : ascii) : string :=
  if unreserved c then String c EmptyString
  else if (nat_of_ascii c =? 32)%nat then "+"
  else String "%" (String (upper_hex (nat_of_ascii c / 16))
                     (String (upper_hex (nat_of_ascii c mod 16)) EmptyString)).

Fixpoint encode (s : string) : string :=
  match s with
  | EmptyString => EmptyString
  | String c rest => encode_byte c +:+ encode rest
  end.


(* [`${params}`], that is [params.toString()] *)
Definition toString (params : t) : string :=
  join "&" (map (fun kv => encode (fst kv) +:+ "=" +:+ encode (snd kv)) params).

End URLSearchParams.

(* The loop shared by getRequests and getProposals:
   [Object.entries(filters).forEach(([key, value]) => {
      if (value) queryParams.append(key, value as string) })] *)
Definition append_filter (params : URLSearchParams.t) (entry : string * value)
  : URLSearchParams.t :=
  if truthy (snd entry)
  then URLSearchParams.append params (fst entry) (snd entry)
  else params.

Definition filter_params (filters : list (string * value)) : URLSearchParams.t :=
  fold_left append_filter filters [].

(** ** The service façades: api.ts, lines 40-230 *)

Record RegisterData := {
  reg_name : string; reg_email : string; reg_password : string; reg_role : string
}.

Definition RegisterData_value (u : RegisterData) : value :=
  VObj [("name", VStr (reg_name u)); ("email", VStr (reg_email u));
        ("password", VStr (reg_password u)); ("role", VStr (reg_role u))].

Module authService.

Definition login (email password : string) : M value :=
  await response <- api.post "/auth/login"
      (JsonData (VObj [("email", VStr email); ("password", VStr password)]));
  exec console "Auth Login";
  await payload_data <- prop (data response) "data";
  await token <- prop payload_data "token";
  await userData <- prop payload_data "userData";
  exec setItem "token" (to_string token);
  exec setItem "user" (stringified userData);
  ret userData.

Definition register (userData : RegisterData) : M value :=
  await response <- api.post "/auth/register" (JsonData (RegisterData_value userData));
  await token <- prop (data response) "token";
  await user <- prop (data response) "user";
  exec setItem "token" (to_string token);
  exec setItem "user" (stringified user);
  ret user.

Definition logout : M value :=
  exec removeItem "token";
  exec removeItem "user";
  ret (VBool true).

Definition getCurrentUser : M value :=
  await token <- getItem "token";
  if negb (truthy_item token) then ret VNull
  else
    try_catch
      (await response <- api.get "/auth/me";
       ret (data response))
      (fun error =>
         exec removeItem "token";
         exec removeItem "user";
         ret VNull).

End authService.

Module userService.

Definition getUsers : M value :=
  await response <- api.get "/users";
  ret (data response).

Definition getUserById (userId : number) : M value :=
  await response <- api.get ("/users?userId=" +:+ num_text userId);
  ret (data response).

Definition updateUser (userId : number) (userData : payload) : M value :=
  await response <- api.put ("/users/" +:+ num_text userId) userData;
  ret (data response).

Definition deleteUser (userId : number) : M value :=
  await response <- api.delete ("/users/" +:+ num_text userId);
  ret (data response).

End userService.

Module requestService.

Definition getRequests (filters : list (string * value)) : M value :=
  let queryParams := filter_params filters in
  await response <-
    api.get ("/customization-requests?" +:+ URLSearchParams.toString queryParams);
  ret (data response).

Definition getRequestById (requestId : string) : M value :=
  await response <- api.get ("/customization-requests/" +:+ requestId);
  exec console "getReqById";
  ret (data response).

Definition createRequest (requestData : payload) : M value :=
  exec console "api";
  if instanceof_FormData requestData then
    await token <- getItem "token";
    let headers : gmap string string :=
      if truthy_item token
      then {[ "Authorization" := "Bearer " +:+ template_item token ]}
      else ∅ in
    try_catch
      (await E <- ask;
       await response <-
         axios.post (API_URL E +:+ "/customization-requests") requestData headers;
       exec console "requests";
       ret (data response))
      (fun error =>
         exec console "Error uploading images:";
         throw error)
  else
    await response <- api.post "/customization-requests" requestData;
    exec console "requests";
    ret (data response).

Definition updateRequest (requestId : string) (requestData : payload) : M value :=
  await response <- api.put ("/customization-requests/" +:+ requestId) requestData;
  ret (data response).

Definition deleteRequest (requestId : number) : M value :=
  await response <- api.delete ("/customization-requests/" +:+ num_text requestId);
  ret (data response).

End requestService.

Module requestImageService.

Definition getImagesByRequestId (requestId : string) : M value :=
  await response <- api.get ("/customization-request-images/" +:+ requestId);
  ret (data response).

Definition addImage (request_id image_url : string) : M value :=
  await response <- api.post "/customization-request-images"
      (JsonData (VObj [("request_id", VStr request_id); ("image_url", VStr image_url)]));
  exec console "response";
  ret (data response).

Definition uploadImage (requestId : string) (imageFile : File) : M value :=
  let formData : FormData :=
    [("request_id", FormString requestId); ("image", FormFile imageFile)] in
  await response <-
    api.post_with "/customization-request-images/upload" (FormDataPayload formData)
      {[ "Content-Type" := "multipart/form-data" ]};
  ret (data response).

Definition deleteImage (imageId : string) : M value :=
  await response <- api.delete ("/customization-request-images/" +:+ imageId);
  ret (data response).

End requestImageService.

Module proposalService.

Definition getProposals (filters : list (string * value)) : M value :=
  let queryParams := filter_params filters in
  await response <-
    api.get ("/designer-proposals?" +:+ URLSearchParams.toString queryParams);
  ret (data response).

Definition createProposal (proposalData : payload) : M value :=
  await response <- api.post "/designer-proposals" proposalData;
  ret (data response).

Definition updateProposal (proposalId : string) (proposalData : payload) : M value :=
  await response <- api.put ("/designer-proposals/" +:+ proposalId) proposalData;
  ret (data response).

End proposalService.

Module chatService.

Definition getMessages (senderId receiverId : number) : M value :=
  await response <-
    api.get ("/chat?senderId=" +:+ num_text senderId
             +:+ "&receiverId=" +:+ num_text receiverId);
  ret (data response).

Definition sendMessage (messageData : payload) : M value :=
  await response <- api.post "/chat" messageData;
  ret (data response).

End chatService.

(* The operations of the façades, to quantify over all of them. *)
Inductive facade_op :=
| OpLogin (email password : string)
| OpRegister (userData : RegisterData)
| OpLogout
| OpGetCurrentUser
| OpGetUsers
| OpGetUserById (userId : number)
| OpUpdateUser (userId : number) (userData : payload)
| OpDeleteUser (userId : number)
| OpGetRequests (filters : list (string * value))
| OpGetRequestById (requestId : string)
| OpCreateRequest (requestData : payload)
| OpUpdateRequest (requestId : string) (requestData : payload)
| OpDeleteRequest (requestId : number)
| OpGetImagesByRequestId (requestId : string)
| OpAddImage (request_id image_url : string)
| OpUploadImage (requestId : string) (imageFile : File)
| OpDeleteImage (imageId : string)
| OpGetProposals (filters : list (string * value))
| OpCreateProposal (proposalData : payload)
| OpUpdateProposal (proposalId : string) (proposalData : payload)
| OpGetMessages (senderId receiverId : number)
| OpSendMessage (messageData : payload).

Definition run_op (o : facade_op) : M value :=
  match o with
  | OpLogin email password => authService.login email password
  | OpRegister userData => authService.register userData
  | OpLogout => authService.logout
  | OpGetCurrentUser => authService.getCurrentUser
  | OpGetUsers => userService.getUsers
  | OpGetUserById userId => userService.getUserById userId
  | OpUpdateUser userId userData => userService.updateUser userId userData
  | OpDeleteUser userId => userService.deleteUser userId
  | OpGetRequests filters => requestService.getRequests filters
  | OpGetRequestById requestId => requestService.getRequestById requestId
  | OpCreateRequest requestData => requestService.createRequest requestData
  | OpUpdateRequest requestId requestData =>
      requestService.updateRequest requestId requestData
  | OpDeleteRequest requestId => requestService.deleteRequest requestId
  | OpGetImagesByRequestId requestId =>
      requestImageService.getImagesByRequestId requestId
  | OpAddImage request_id image_url =>
      requestImageService.addImage request_id image_url
  | OpUploadImage requestId imageFile =>
      requestImageService.uploadImage requestId imageFile
  | OpDeleteImage imageId => requestImageService.deleteImage imageId
  | OpGetProposals filters => proposalService.getProposals filters
  | OpCreateProposal proposalData => proposalService.createProposal proposalData
  | OpUpdateProposal proposalId proposalData =>
      proposalService.updateProposal proposalId proposalData
  | OpGetMessages senderId receiverId => chatService.getMessages senderId receiverId
  | OpSendMessage messageData => chatService.sendMessage messageData
  end.

(** ** The auth page: Auth.tsx, lines 9-78 *)

Inductive role := customer | designer.

Definition role_string (r : role) : string :=
  match r with customer => "customer" | designer => "designer" end.

Definition setLoading (b : bool) : M unit :=
  effect (fun w => emit (EvSetLoading b) (with_loading b w)).

Definition setUser (v : value) : M unit :=
  effect (fun w => emit (EvSetUser v) (with_user v w)).

Definition toast (title description : string) (destructive : bool) : M unit :=
  effect (emit (EvToast title description destructive)).

Definition navigate (path : string) : M unit := effect (emit (EvNavigate path)).

Definition fetch (q : fetch_request) : M fetch_response :=
  fun E w => (fetch_backend E q, emit (EvFetch q) w).

(* [await response.json()] *)
Definition json (r : fetch_response) : M value := fun _ w => (fr_json r, w).

(* [error instanceof Error ? error.message : fallback] *)
Definition error_description (error : js_error) (fallback : string) : string :=
  if instanceof_Error error then message error else fallback.

Definition handleLogin (email password : string) : M unit :=
  exec setLoading true;
  try_catch
    (await userData <- authService.login email password;
     exec setUser userData;
     exec toast "Login successful" "Welcome back to StyleVerse." false;
     navigate "/")
    (fun error =>
       toast "Login failed" (error_description error "Invalid credentials") true).

Definition handleRegister (name email password : string) (r : role) : M unit :=
  exec setLoading true;
  try_finally
    (try_catch
       (await E <- ask;
        await response <- fetch
          {| fq_url := API_URL E +:+ "/auth/register";
             fq_method := POST;
             fq_headers := {[ "Content-Type" := "application/json" ]};
             fq_body := stringified
               (VObj [("name", VStr name); ("email", VStr email);
                      ("password", VStr password);
                      ("role", VStr (role_string r))]) |};
        exec (if negb (fr_ok response)
              then await errorData <- json response;
                   await msg <- prop errorData "message";
                   throw (new_Error
                            (to_string (if truthy msg then msg
                                        else VStr "Registration failed")))
              else ret tt);
        toast "Registration successful" "Welcome to StyleVerse." false)
       (fun error =>
          toast "Registration failed"
                (error_description error "Could not create account") true))
    (setLoading false).

(** ** Vocabulary of the statements *)

(* The config that the request interceptor hands to the adapter for a call
   on the shared client made in world [w]. *)
Definition sent_config (E : env) (w : world) (m : method) (url : string)
    (d : payload) (headers : gmap string string) : config :=
  let c := {| cfg_method := m; cfg_baseURL := Some (API_URL E); cfg_url := url;
              cfg_headers := headers ∪ default_headers; cfg_data := d |} in
  if truthy_item (localStorage w !! "token")
  then set_header "Authorization"
         ("Bearer " +:+ template_item (localStorage w !! "token")) c
  else c.

(* The world after the 401 branch of the response interceptor. *)
Definition session_expired (w : world) : world :=
  with_href "/auth"
    (emit (EvRemoveItem "user")
       (with_storage (delete "user")
          (emit (EvRemoveItem "token") (with_storage (delete "token") w)))).

Definition after_rejection (e : js_error) (w : world) : world :=
  if is_401 e then session_expired w else w.

Definition is_request (ev : event) : bool :=
  match ev with EvRequest _ => true | _ => false end.

Definition is_setItem (ev : event) : bool :=
  match ev with EvSetItem _ _ => true | _ => false end.

Definition is_toast (ev : event) : bool :=
  match ev with EvToast _ _ _ => true | _ => false end.

Definition is_navigate (ev : event) : bool :=
  match ev with EvNavigate _ => true | _ => false end.

Definition is_setLoading (ev : event) : bool :=
  match ev with EvSetLoading _ => true | _ => false end.

(* [evs] are the events of a run from [w] to [w'], newest first. *)
Definition emitted (w w' : world) (evs : list event) : Prop :=
  log w' = (evs ++ log w)%list.

Definition login_body (email password : string) : payload :=
  JsonData (VObj [("email", VStr email); ("password", VStr password)]).

(* The world after the two writes of a session. *)
Definition session_stored (token user_json : string) (w : world) : world :=
  emit (EvSetItem "user" user_json)
    (with_storage (insert "user" user_json)
       (emit (EvSetItem "token" token) (with_storage (insert "token" token) w))).


(** ** Sample responses, environments and worlds *)

Definition http_error (code : Z) : js_error :=
  {| instanceof_Error := true;
     message := "Request failed with status code " +:+ pretty code;
     err_response := Some {| status := code; data := VNull |} |}.

Definition network_error : js_error :=
  {| instanceof_Error := true; message := "Network Error"; err_response := None |}.

(* The scenario of the specification:
   [{data: {data: {token: "t1", userData: {id: 1}}}}]. *)
Definition scenario_profile : value := VObj [("id", VNum (num "1"))].

Definition scenario_response : response :=
  {| status := 200;
     data := VObj [("data", VObj [("token", VStr "t1");
                                  ("userData", scenario_profile)])] |}.

Definition register_profile : value :=
  VObj [("id", VNum (num "2")); ("name", VStr "Ada")].

Definition register_response : response :=
  {| status := 201;
     data := VObj [("token", VStr "t2"); ("user", register_profile)] |}.

Definition sample_transport (c : config) : outcome response :=
  if String.eqb (cfg_url c) "/auth/login" then Fulfilled scenario_response
  else if String.eqb (cfg_url c) "/auth/register" then Fulfilled register_response
  else Fulfilled {| status := 200; data := VArr [] |}.

(* A backend that accepts everything. *)
Definition accepting_env : env :=
  {| VITE_API_URL := None;
     transport := sample_transport;
     fetch_backend := fun _ =>
       Fulfilled {| fr_ok := true; fr_json := Fulfilled (data register_response) |} |}.

(* A transport on which every call is rejected with [e]. *)
Definition failing_env (e : js_error) : env :=
  {| VITE_API_URL := None;
     transport := fun _ => Rejected e;
     fetch_backend := fun _ => Rejected e |}.

Definition world_with (storage : gmap string string) : world :=
  {| localStorage := storage; location_href := "/"; loading := false;
     user := VUndefined; log := [] |}.

Definition fresh_world : world := world_with ∅.

Definition signed_in_world : world :=
  world_with (<["user" := "{}"]> (<["token" := "t0"]> ∅)).

Definition sample_registration : RegisterData :=
  {| reg_name := "Ada"; reg_email := "ada@example.com";
     reg_password := "pw"; reg_role := "designer" |}.

(* The config that createRequest builds by hand for a FormData payload and
   passes to the axios default export. *)
Definition form_request_config (E : env) (w : world) (requestData : payload)
  : config :=
  {| cfg_method := POST; cfg_baseURL := None;
     cfg_url := API_URL E +:+ "/customization-requests";
     cfg_headers :=
       if truthy_item (localStorage w !! "token")
       then {[ "Authorization" := "Bearer " +:+ template_item (localStorage w !! "token") ]}
       else ∅;
     cfg_data := requestData |}.

(* The FormData object that uploadImage fills. *)
Definition upload_form (requestId : string) (imageFile : File) : FormData :=
  [("request_id", FormString requestId); ("image", FormFile imageFile)].

Definition sample_file : File := {| file_name := "dress.png"; file_content := "PNG" |}.

(* Every event that the computation emits, in any environment and from any
   world, satisfies [P]. *)
Definition emits_only (P : event -> bool) {A} (m : M A) : Prop :=
  forall E w, exists evs,
    emitted w (snd (m E w)) evs /\ Forall (fun ev => P ev = true) evs.

Definition not_toast (ev : event) : bool := negb (is_toast ev).

(* The operation whose try/catch turns a failed call into a result. *)
Definition swallows_failure (o : facade_op) : bool :=
  match o with OpGetCurrentUser => true | _ => false end.


(* The pair that [append] adds for an entry of the filter object. *)
Definition entry_param (entry : string * value) : string * string :=
  (fst entry, to_string (snd entry)).

(* The operations whose call goes through the shared client and therefore
   through its interceptors: all but logout, which makes no call, and
   createRequest with a FormData payload, which uses the axios default
   export. *)
Definition uses_shared_client (o : facade_op) : bool :=
  match o with
  | OpLogout => false
  | OpCreateRequest (FormDataPayload _) => false
  | _ => true
  end.

(** ** Vocabulary of the further properties *)

(* The token and user entries are there together or not at all. *)
Definition paired (storage : gmap string string) : Prop :=
  is_Some (storage !! "token") <-> is_Some (storage !! "user").

Definition not_request (ev : event) : bool := negb (is_request ev).

Definition is_fetch (ev : event) : bool :=
  match ev with EvFetch _ => true | _ => false end.

Definition is_setUser (ev : event) : bool :=
  match ev with EvSetUser _ => true | _ => false end.

(* What a façade may do: send a request, write or remove the token and
   user entries, and print to the console. *)
Definition facade_event (ev : event) : bool :=
  match ev with
  | EvRequest _ | EvConsole _ => true
  | EvSetItem k _ | EvRemoveItem k => String.eqb k "token" || String.eqb k "user"
  | EvFetch _ | EvToast _ _ _ | EvNavigate _ | EvSetLoading _ | EvSetUser _ => false
  end.

(* A backend that answers the login with an empty payload object:
   [{data: {data: {}}}]. *)
Definition hollow_env : env :=
  {| VITE_API_URL := None;
     transport := fun _ =>
       Fulfilled {| status := 200; data := VObj [("data", VObj [])] |};
     fetch_backend := fun _ => Rejected network_error |}.

(* A backend that refuses the registration of the auth page with the body
   [errorData]. *)
Definition refusing_env (errorData : value) : env :=
  {| VITE_API_URL := None;
     transport := fun _ => Rejected (http_error 400);
     fetch_backend := fun _ =>
       Fulfilled {| fr_ok := false; fr_json := Fulfilled errorData |} |}.

(* A world with an entry of another application besides the session. *)
Definition themed_world : world :=
  world_with (<["theme" := "dark"]> (<["user" := "{}"]> (<["token" := "t0"]> ∅))).

(* The three things that can have happened to the session between two
   worlds: nothing; both entries removed, with or without the redirect of the
   response interceptor; both entries written. *)
Definition session_step (w w' : world) : Prop :=
  (localStorage w' = localStorage w /\ location_href w' = location_href w) \/
  (localStorage w' = delete "user" (delete "token" (localStorage w)) /\
   (location_href w' = location_href w \/ location_href w' = "/auth")) \/
  (exists t u,
     localStorage w' = <["user" := u]> (<["token" := t]> (localStorage w)) /\
     location_href w' = location_href w).

(* How many requests an operation makes from a world: logout makes none,
   getCurrentUser makes none when no token is stored, every other operation
   makes one. *)
Definition expected_requests (o : facade_op) (w : world) : nat :=
  match o with
  | OpLogout => 0
  | OpGetCurrentUser => if truthy_item (localStorage w !! "token") then 1 else 0
  | _ => 1
  end.

(* The request carries the token [t] as a bearer credential. *)
Definition carries_token (t : string) (c : config) : Prop :=
  cfg_headers c !! "Authorization" = Some ("Bearer " +:+ t).

(* The world in which the login handler calls the façade: the flag is up. *)
Definition submitting (w : world) : world :=
  emit (EvSetLoading true) (with_loading true w).

(* The request that the register handler passes to fetch. *)
Definition register_fetch (E : env) (name email password : string) (r : role)
  : fetch_request :=
  {| fq_url := API_URL E +:+ "/auth/register";
     fq_method := POST;
     fq_headers := {[ "Content-Type" := "application/json" ]};
     fq_body := stringified
       (VObj [("name", VStr name); ("email", VStr email);
              ("password", VStr password); ("role", VStr (role_string r))]) |}.

(* A backend whose login answers with an empty token:
   [{data: {data: {token: "", userData: {id: 1}}}}]. *)
Definition empty_token_env : env :=
  {| VITE_API_URL := None;
     transport := fun _ =>
       Fulfilled {| status := 200;
                    data := VObj [("data", VObj [("token", VStr EmptyString);
                                                 ("userData", scenario_profile)])] |};
     fetch_backend := fun _ => Rejected network_error |}.

(* The request goes to the configured base URL: through the baseURL of the
   shared client, or with the base URL written in front of the path. *)
Definition targets_base (E : env) (c : config) : Prop :=
  cfg_baseURL c = Some (API_URL E) \/
  (cfg_baseURL c = None /\ exists path, cfg_url c = API_URL E +:+ path).

Definition env_with_base (base : option string) : env :=
  {| VITE_API_URL := base;
     transport := sample_transport;
     fetch_backend := fun _ => Rejected network_error |}.

(** ** Vocabulary of the revised statements *)

(* The error of a browser that refuses access to local storage. *)
Definition security_error : js_error :=
  {| instanceof_Error := true; message := "The operation is insecure.";
     err_response := None |}.

(* The request that an operation hands to the transport from world [w], if
   it makes one. *)
Definition request_of (o : facade_op) (E : env) (w : world) : option config :=
  match o with
  | OpLogin email password =>
      Some (sent_config E w POST "/auth/login" (login_body email password) ∅)
  | OpRegister userData =>
      Some (sent_config E w POST "/auth/register"
              (JsonData (RegisterData_value userData)) ∅)
  | OpLogout => None
  | OpGetCurrentUser =>
      if truthy_item (localStorage w !! "token")
      then Some (sent_config E w GET "/auth/me" NoData ∅)
      else None
  | OpGetUsers => Some (sent_config E w GET "/users" NoData ∅)
  | OpGetUserById userId =>
      Some (sent_config E w GET ("/users?userId=" +:+ num_text userId) NoData ∅)
  | OpUpdateUser userId userData =>
      Some (sent_config E w PUT ("/users/" +:+ num_text userId) userData ∅)
  | OpDeleteUser userId =>
      Some (sent_config E w DELETE ("/users/" +:+ num_text userId) NoData ∅)
  | OpGetRequests filters =>
      Some (sent_config E w GET
              ("/customization-requests?"
               +:+ URLSearchParams.toString (filter_params filters)) NoData ∅)
  | OpGetRequestById requestId =>
      Some (sent_config E w GET ("/customization-requests/" +:+ requestId) NoData ∅)
  | OpCreateRequest requestData =>
      Some (if instanceof_FormData requestData
            then form_request_config E w requestData
            else sent_config E w POST "/customization-requests" requestData ∅)
  | OpUpdateRequest requestId requestData =>
      Some (sent_config E w PUT ("/customization-requests/" +:+ requestId)
              requestData ∅)
  | OpDeleteRequest requestId =>
      Some (sent_config E w DELETE
              ("/customization-requests/" +:+ num_text requestId) NoData ∅)
  | OpGetImagesByRequestId requestId =>
      Some (sent_config E w GET ("/customization-request-images/" +:+ requestId)
              NoData ∅)
  | OpAddImage request_id image_url =>
      Some (sent_config E w POST "/customization-request-images"
              (JsonData (VObj [("request_id", VStr request_id);
                               ("image_url", VStr image_url)])) ∅)
  | OpUploadImage requestId imageFile =>
      Some (sent_config E w POST "/customization-request-images/upload"
              (FormDataPayload (upload_form requestId imageFile))
              {[ "Content-Type" := "multipart/form-data" ]})
  | OpDeleteImage imageId =>
      Some (sent_config E w DELETE ("/customization-request-images/" +:+ imageId)
              NoData ∅)
  | OpGetProposals filters =>
      Some (sent_config E w GET
              ("/designer-proposals?"
               +:+ URLSearchParams.toString (filter_params filters)) NoData ∅)
  | OpCreateProposal proposalData =>
      Some (sent_config E w POST "/designer-proposals" proposalData ∅)
  | OpUpdateProposal proposalId proposalData =>
      Some (sent_config E w PUT ("/designer-proposals/" +:+ proposalId)
              proposalData ∅)
  | OpGetMessages senderId receiverId =>
      Some (sent_config E w GET
              ("/chat?senderId=" +:+ num_text senderId
               +:+ "&receiverId=" +:+ num_text receiverId) NoData ∅)
  | OpSendMessage messageData => Some (sent_config E w POST "/chat" messageData ∅)
  end.

(* [needle] occurs in [text]. *)
Definition occurs (needle text : string) : bool :=
  match String.index 0 needle text with
  | Some _ => true
  | None => false
  end.

(* A backend that refuses the list of users with a 401 and accepts every
   other call. *)
Definition users_refused_env : env :=
  {| VITE_API_URL := None;
     transport := fun c =>
       if String.eqb (cfg_url c) "/users" then Rejected (http_error 401)
       else sample_transport c;
     fetch_backend := fun _ => Rejected network_error |}.

(* A backend that refuses /auth/me with a network error and accepts every
   other call. *)
Definition me_refused_env : env :=
  {| VITE_API_URL := None;
     transport := fun c =>
       if String.eqb (cfg_url c) "/auth/me" then Rejected network_error
       else sample_transport c;
     fetch_backend := fun _ => Rejected network_error |}.

(* A backend on which the login succeeds and the registration is refused. *)
Definition register_refused_env : env :=
  {| VITE_API_URL := None;
     transport := fun c =>
       if String.eqb (cfg_url c) "/auth/register" then Rejected (http_error 409)
       else sample_transport c;
     fetch_backend := fun _ => Rejected network_error |}.

(* A profile with a number that is written in exponent form. *)
Definition large_profile : value := VObj [("id", VNum (num "1e+21"))].

(** ** Basic facts *)

Lemma emitted_refl w : emitted w w [].
Proof. reflexivity. Qed.

Lemma emitted_emit w w' evs ev :
  emitted w w' evs -> emitted w (emit ev w') (ev :: evs).
Proof. unfold emitted. simpl. intros ->. reflexivity. Qed.

Lemma request_fulfilled_run c E w :
  request_fulfilled c E w =
  (Fulfilled (if truthy_item (localStorage w !! "token")
              then set_header "Authorization"
                     ("Bearer " +:+ template_item (localStorage w !! "token")) c
              else c), w).
Proof.
  unfold request_fulfilled, request_fulfilled_with, bind, getItem.
  destruct (truthy_item (localStorage w !! "token")); reflexivity.
Qed.

Lemma response_rejected_run e E w :
  response_rejected e E w = (Rejected e, after_rejection e w).
Proof.
  unfold response_rejected, after_rejection, bind.
  destruct (is_401 e); reflexivity.
Qed.

(* One call on the shared client: exactly one request leaves, built by the
   request interceptor; a rejection passes through the response interceptor. *)
Lemma api_request_run m url d headers E w :
  api.request m url d headers E w =
  let c := sent_config E w m url d headers in
  match transport E c with
  | Fulfilled r => (Fulfilled r, emit (EvRequest c) w)
  | Rejected e => (Rejected e, after_rejection e (emit (EvRequest c) w))
  end.
Proof.
  unfold api.request, api.request_with, bind, ask, then_, sent_config.
  cbv beta iota. unfold ret at 1. cbv beta iota.
  change (request_fulfilled_with getItem) with request_fulfilled.
  rewrite request_fulfilled_run. unfold dispatch.
  destruct (transport E _) as [r|e].
  - reflexivity.
  - apply response_rejected_run.
Qed.

Lemma session_expired_storage w :
  localStorage (session_expired w) = delete "user" (delete "token" (localStorage w)).
Proof. reflexivity. Qed.

Lemma cleared_token (m : gmap string string) :
  delete "user" (delete "token" m) !! "token" = None.
Proof. rewrite lookup_delete_ne by discriminate. apply lookup_delete_eq. Qed.

Lemma cleared_user (m : gmap string string) :
  delete "user" (delete "token" m) !! "user" = None.
Proof. apply lookup_delete_eq. Qed.

Lemma is_401_status e r :
  err_response e = Some r -> status r = 401%Z -> is_401 e = true.
Proof. unfold is_401. intros -> ->. reflexivity. Qed.

(** ** The response interceptor *)

(** C1. A call on the shared client whose response is rejected with HTTP
    status 401: the response interceptor removes the token and user entries
    of local storage, sets window.location.href to /auth, and the call still
    rejects with the same error.  The statement is about [api.request], which
    every get, post, put and delete of the shared client goes through. *)
Theorem C1_unauthorized_clears_session_and_rejects
    (E : env) (w : world) (m : method) (url : string) (d : payload)
    (headers : gmap string string) (e : js_error) (r : response) :
  transport E (sent_config E w m url d headers) = Rejected e ->
  err_response e = Some r ->
  status r = 401%Z ->
  exists w',
    api.request m url d headers E w = (Rejected e, w') /\
    localStorage w' = delete "user" (delete "token" (localStorage w)) /\
    localStorage w' !! "token" = None /\
    localStorage w' !! "user" = None /\
    location_href w' = "/auth".
Proof.
  intros Hnet Hresp Hstatus.
  rewrite api_request_run. cbv zeta. rewrite Hnet.
  unfold after_rejection. rewrite (is_401_status e r Hresp Hstatus).
  eexists. split; [reflexivity|].
  rewrite session_expired_storage. simpl.
  repeat split; auto using cleared_token, cleared_user.
Qed.

Lemma C1_witness :
  exists w',
    api.request GET "/users" NoData ∅ (failing_env (http_error 401)) signed_in_world
      = (Rejected (http_error 401), w') /\
    localStorage w' = delete "user" (delete "token" (localStorage signed_in_world)) /\
    localStorage w' !! "token" = None /\
    localStorage w' !! "user" = None /\
    location_href w' = "/auth".
Proof.
  apply (C1_unauthorized_clears_session_and_rejects
           (failing_env (http_error 401)) signed_in_world GET "/users" NoData ∅
           (http_error 401) {| status := 401; data := VNull |});
    reflexivity.
Defined.

(** ** login and register *)

Lemma session_stored_token token user_json w :
  localStorage (session_stored token user_json w) !! "token" = Some token.
Proof.
  simpl. rewrite lookup_insert_ne by discriminate. apply lookup_insert_eq.
Qed.

Lemma session_stored_user token user_json w :
  localStorage (session_stored token user_json w) !! "user" = Some user_json.
Proof. simpl. apply lookup_insert_eq. Qed.

Lemma login_fulfilled E w email password r inner token userData :
  transport E (sent_config E w POST "/auth/login" (login_body email password) ∅)
    = Fulfilled r ->
  get_prop (data r) "data" = Some inner ->
  get_prop inner "token" = Some token ->
  get_prop inner "userData" = Some userData ->
  authService.login email password E w =
  (Fulfilled userData,
   session_stored (to_string token) (stringified userData)
     (emit (EvConsole "Auth Login")
        (emit (EvRequest (sent_config E w POST "/auth/login"
                            (login_body email password) ∅)) w))).
Proof.
  intros Hnet Hdata Htoken Huser.
  unfold authService.login, api.post. unfold bind at 1.
  rewrite api_request_run. cbv zeta. fold (login_body email password).
  rewrite Hnet. unfold bind, console, effect, prop, ret. cbv beta iota.
  rewrite Hdata. cbv beta iota. rewrite Htoken. cbv beta iota.
  rewrite Huser. reflexivity.
Qed.

Lemma register_fulfilled E w userData r token user :
  transport E (sent_config E w POST "/auth/register"
                 (JsonData (RegisterData_value userData)) ∅) = Fulfilled r ->
  get_prop (data r) "token" = Some token ->
  get_prop (data r) "user" = Some user ->
  authService.register userData E w =
  (Fulfilled user,
   session_stored (to_string token) (stringified user)
     (emit (EvRequest (sent_config E w POST "/auth/register"
                         (JsonData (RegisterData_value userData)) ∅)) w)).
Proof.
  intros Hnet Htoken Huser.
  unfold authService.register, api.post. unfold bind at 1.
  rewrite api_request_run. cbv zeta. rewrite Hnet.
  unfold bind, prop, ret. cbv beta iota.
  rewrite Htoken. cbv beta iota. rewrite Huser. reflexivity.
Qed.

(** C2. login reads token and userData from response.data.data, register
    reads token and user from response.data; each stores the token under
    the key token and the JSON text of the profile under the key user, and
    returns the profile.  The two parts are independent: each has the
    response of its own call as its only premise.  The last part is the
    scenario of the specification: login("a@b.com", "pw") resolving with
    {data: {data: {token: "t1", userData: {id: 1}}}} stores token = t1 and
    user = {"id":1} and returns {id: 1}. *)
Theorem C2_login_and_register_store_the_session (E : env) (w : world) :
  (forall email password r inner token userData,
     transport E (sent_config E w POST "/auth/login" (login_body email password) ∅)
       = Fulfilled r ->
     get_prop (data r) "data" = Some inner ->
     get_prop inner "token" = Some (VStr token) ->
     get_prop inner "userData" = Some userData ->
     exists w1,
       authService.login email password E w = (Fulfilled userData, w1) /\
       localStorage w1 !! "token" = Some token /\
       localStorage w1 !! "user" = Some (stringified userData)) /\
  (forall registration r token user,
     transport E (sent_config E w POST "/auth/register"
                    (JsonData (RegisterData_value registration)) ∅) = Fulfilled r ->
     get_prop (data r) "token" = Some (VStr token) ->
     get_prop (data r) "user" = Some user ->
     exists w2,
       authService.register registration E w = (Fulfilled user, w2) /\
       localStorage w2 !! "token" = Some token /\
       localStorage w2 !! "user" = Some (stringified user)) /\
  (transport E (sent_config E w POST "/auth/login" (login_body "a@b.com" "pw") ∅)
     = Fulfilled scenario_response ->
   exists w1,
     authService.login "a@b.com" "pw" E w
       = (Fulfilled (VObj [("id", VNum (num "1"))]), w1) /\
     localStorage w1 !! "token" = Some "t1" /\
     localStorage w1 !! "user" = Some ("{" +:+ dq +:+ "id" +:+ dq +:+ ":1}")).
Proof.
  split; [|split].
  - intros email password r inner token userData Hnet Hdata Htoken Huser.
    eexists. split.
    + apply (login_fulfilled E w email password r inner (VStr token) userData);
        assumption.
    + split; [apply session_stored_token | apply session_stored_user].
  - intros registration r token user Hnet Htoken Huser.
    eexists. split.
    + apply (register_fulfilled E w registration r (VStr token) user);
        assumption.
    + split; [apply session_stored_token | apply session_stored_user].
  - intros Hscenario. eexists. split.
    + apply (login_fulfilled E w "a@b.com" "pw" scenario_response
               (VObj [("token", VStr "t1"); ("userData", scenario_profile)])
               (VStr "t1") scenario_profile); [assumption | reflexivity ..].
    + split; [apply session_stored_token | apply session_stored_user].
Qed.

(* The login part where the registration is refused, the register part on a
   backend that accepts it, and the scenario. *)
Lemma C2_witness :
  (exists w1,
     authService.login "a@b.com" "pw" register_refused_env fresh_world
       = (Fulfilled scenario_profile, w1) /\
     localStorage w1 !! "token" = Some "t1" /\
     localStorage w1 !! "user" = Some (stringified scenario_profile)) /\
  (exists w2,
     authService.register sample_registration accepting_env fresh_world
       = (Fulfilled register_profile, w2) /\
     localStorage w2 !! "token" = Some "t2" /\
     localStorage w2 !! "user" = Some (stringified register_profile)) /\
  (exists w1,
     authService.login "a@b.com" "pw" accepting_env fresh_world
       = (Fulfilled (VObj [("id", VNum (num "1"))]), w1) /\
     localStorage w1 !! "token" = Some "t1" /\
     localStorage w1 !! "user" = Some ("{" +:+ dq +:+ "id" +:+ dq +:+ ":1}")).
Proof.
  split; [|split].
  - apply (proj1 (C2_login_and_register_store_the_session
                    register_refused_env fresh_world)
             "a@b.com" "pw" scenario_response
             (VObj [("token", VStr "t1"); ("userData", scenario_profile)])
             "t1" scenario_profile); reflexivity.
  - apply (proj1 (proj2 (C2_login_and_register_store_the_session
                           accepting_env fresh_world))
             sample_registration register_response "t2" register_profile);
      reflexivity.
  - apply (proj2 (proj2 (C2_login_and_register_store_the_session
                           accepting_env fresh_world))).
    reflexivity.
Defined.

(** ** The request interceptor *)

Lemma truthy_item_Some t :
  t <> EmptyString -> truthy_item (Some t) = true.
Proof. destruct t; [congruence | reflexivity]. Qed.

(* The request of a call on the shared client is in the log afterwards. *)
Lemma api_request_logged m url d headers E w :
  In (EvRequest (sent_config E w m url d headers))
     (log (snd (api.request m url d headers E w))).
Proof.
  rewrite api_request_run. cbv zeta.
  destruct (transport E _) as [r|e]; simpl.
  - left. reflexivity.
  - unfold after_rejection. destruct (is_401 e); simpl; auto.
Qed.

Lemma request_with_refused_storage e m url d headers E w :
  api.request_with (getItem_refused e) m url d headers E w
  = (Rejected e, after_rejection e w).
Proof.
  unfold api.request_with, bind, ask, then_, request_fulfilled_with,
    getItem_refused, throw, ret.
  cbv beta iota. apply response_rejected_run.
Qed.

(** C3 as stated fails: in a browser that refuses access to local storage
    the read of the token throws, the interceptor has no try/catch, and the
    call is rejected with that error; nothing is sent. *)
Lemma C3_counterexample :
  fst (request_fulfilled_with (getItem_refused security_error)
         {| cfg_method := GET; cfg_baseURL := Some (API_URL accepting_env);
            cfg_url := "/users"; cfg_headers := ∅ ∪ default_headers;
            cfg_data := NoData |} accepting_env signed_in_world)
    = Rejected security_error /\
  api.request_with (getItem_refused security_error) GET "/users" NoData ∅
    accepting_env signed_in_world
    = (Rejected security_error, signed_in_world) /\
  filter is_request
    (log (snd (api.request_with (getItem_refused security_error) GET "/users"
                 NoData ∅ accepting_env signed_in_world))) = [].
Proof. repeat split. Qed.

(** C3, amended. When local storage can be read, the request interceptor
    never rejects and leaves the world as it is: when local storage holds a
    token (a non-empty string under the key token, which is what the guard
    [if (token)] tests) the Authorization header of the outgoing config is
    Bearer followed by the token and nothing else of the config changes; when
    there is no token (no entry, or the empty string) the config is returned
    unmodified; the config returned by the interceptor is the one that the
    call hands to the transport.  When the read of the token throws, the
    interceptor does not catch the error: it rejects with it, and so does
    the call, without a request being sent. *)
Theorem C3_request_interceptor_rejects_only_when_storage_cannot_be_read
    (E : env) (w : world) (m : method) (url : string) (d : payload)
    (headers : gmap string string) :
  let c := {| cfg_method := m; cfg_baseURL := Some (API_URL E); cfg_url := url;
              cfg_headers := headers ∪ default_headers; cfg_data := d |} in
  (exists c',
     request_fulfilled c E w = (Fulfilled c', w) /\
     (forall t, localStorage w !! "token" = Some t -> t <> EmptyString ->
        c' = set_header "Authorization" ("Bearer " +:+ t) c /\
        cfg_headers c' !! "Authorization" = Some ("Bearer " +:+ t) /\
        (forall k, k <> "Authorization" -> cfg_headers c' !! k = cfg_headers c !! k)) /\
     (localStorage w !! "token" = None -> c' = c) /\
     (localStorage w !! "token" = Some EmptyString -> c' = c) /\
     In (EvRequest c') (log (snd (api.request m url d headers E w)))) /\
  (forall e,
     request_fulfilled_with (getItem_refused e) c E w = (Rejected e, w) /\
     api.request_with (getItem_refused e) m url d headers E w
       = (Rejected e, after_rejection e w) /\
     (err_response e = None ->
      api.request_with (getItem_refused e) m url d headers E w = (Rejected e, w))).
Proof.
  intros c. split.
  - eexists. split; [apply request_fulfilled_run|].
    split; [|split; [|split]].
    + intros t Ht Hne. rewrite Ht, (truthy_item_Some t Hne). simpl.
      split; [reflexivity|]. split.
      * apply lookup_insert_eq.
      * intros k Hk. apply lookup_insert_ne. congruence.
    + intros ->. reflexivity.
    + intros ->. reflexivity.
    + apply api_request_logged.
  - intros e. split; [reflexivity|]. split; [apply request_with_refused_storage|].
    intros Hnone. rewrite request_with_refused_storage.
    unfold after_rejection, is_401. rewrite Hnone. reflexivity.
Qed.

Lemma C3_witness :
  (exists c',
     request_fulfilled
       {| cfg_method := GET; cfg_baseURL := Some (API_URL accepting_env);
          cfg_url := "/users"; cfg_headers := ∅ ∪ default_headers;
          cfg_data := NoData |} accepting_env signed_in_world
       = (Fulfilled c', signed_in_world) /\
     cfg_headers c' !! "Authorization" = Some "Bearer t0" /\
     cfg_headers c' !! "Content-Type" = Some "application/json") /\
  api.request_with (getItem_refused security_error) GET "/users" NoData ∅
    accepting_env signed_in_world = (Rejected security_error, signed_in_world).
Proof.
  destruct (C3_request_interceptor_rejects_only_when_storage_cannot_be_read
              accepting_env signed_in_world GET "/users" NoData ∅)
    as [(c' & Hrun & Hpresent & _) Hrefused].
  split.
  - exists c'. split; [exact Hrun|].
    destruct (Hpresent "t0") as (_ & Hauth & Hother); [reflexivity | discriminate |].
    split; [exact Hauth|].
    rewrite Hother by discriminate. reflexivity.
  - apply (proj2 (proj2 (Hrefused security_error))). reflexivity.
Defined.

(** ** The two upload operations *)

Lemma createRequest_form_run E w fd :
  requestService.createRequest (FormDataPayload fd) E w =
  let c := form_request_config E w (FormDataPayload fd) in
  let w1 := emit (EvRequest c) (emit (EvConsole "api") w) in
  match transport E c with
  | Fulfilled r => (Fulfilled (data r), emit (EvConsole "requests") w1)
  | Rejected e => (Rejected e, emit (EvConsole "Error uploading images:") w1)
  end.
Proof.
  unfold requestService.createRequest, form_request_config. simpl instanceof_FormData.
  cbv iota. unfold bind at 1. unfold console at 1, effect at 1.
  unfold bind at 1. unfold getItem at 1. simpl localStorage.
  unfold try_catch, then_, bind, ask, axios.post, dispatch, console, effect, ret, throw.
  simpl localStorage.
  destruct (transport E _) as [r|e]; reflexivity.
Qed.

Lemma uploadImage_run E w requestId imageFile :
  requestImageService.uploadImage requestId imageFile E w =
  let c := sent_config E w POST "/customization-request-images/upload"
             (FormDataPayload (upload_form requestId imageFile))
             {[ "Content-Type" := "multipart/form-data" ]} in
  match transport E c with
  | Fulfilled r => (Fulfilled (data r), emit (EvRequest c) w)
  | Rejected e => (Rejected e, after_rejection e (emit (EvRequest c) w))
  end.
Proof.
  unfold requestImageService.uploadImage, api.post_with. unfold bind.
  rewrite api_request_run. cbv zeta. fold (upload_form requestId imageFile).
  destruct (transport E _) as [r|e]; reflexivity.
Qed.

Lemma sent_config_header E w m url d headers k :
  k <> "Authorization" ->
  cfg_headers (sent_config E w m url d headers) !! k = (headers ∪ default_headers) !! k.
Proof.
  intros Hk. unfold sent_config.
  destruct (truthy_item (localStorage w !! "token")); simpl; [|reflexivity].
  apply lookup_insert_ne. congruence.
Qed.

Lemma sent_config_authorization E w m url d headers t :
  localStorage w !! "token" = Some t -> t <> EmptyString ->
  cfg_headers (sent_config E w m url d headers) !! "Authorization"
    = Some ("Bearer " +:+ t).
Proof.
  intros Ht Hne. unfold sent_config. rewrite Ht, (truthy_item_Some t Hne). simpl.
  apply lookup_insert_eq.
Qed.

Lemma sent_config_data E w m url d headers :
  cfg_data (sent_config E w m url d headers) = d.
Proof.
  unfold sent_config. destruct (truthy_item (localStorage w !! "token")); reflexivity.
Qed.

Lemma after_rejection_emitted e w :
  exists evs, emitted w (after_rejection e w) evs /\ filter is_request evs = [] /\
              filter is_setItem evs = [] /\ filter is_toast evs = [].
Proof.
  unfold after_rejection. destruct (is_401 e).
  - exists [EvRemoveItem "user"; EvRemoveItem "token"]. repeat split.
  - exists []. repeat split.
Qed.

(** C4. Both upload operations hand the FormData payload to the transport
    without the JSON content type and with the bearer token when local
    storage holds one.  createRequest with a FormData payload sends exactly
    one request, on the axios default export, that carries no Content-Type
    header at all; uploadImage sends exactly one request, on the shared
    client, whose Content-Type is multipart/form-data, which overrides the
    JSON default of the instance and names no boundary, so that the boundary
    is for the transport to choose.  In both the Authorization header is
    Bearer followed by the stored token. *)
Theorem C4_uploads_skip_json_content_type_and_keep_token
    (E : env) (w : world) (fd : FormData) (requestId : string)
    (imageFile : File) :
  (exists c res w' evs,
     requestService.createRequest (FormDataPayload fd) E w = (res, w') /\
     emitted w w' evs /\ filter is_request evs = [EvRequest c] /\
     cfg_data c = FormDataPayload fd /\
     cfg_headers c !! "Content-Type" = None /\
     (forall t, localStorage w !! "token" = Some t -> t <> EmptyString ->
        cfg_headers c !! "Authorization" = Some ("Bearer " +:+ t))) /\
  (exists c res w' evs,
     requestImageService.uploadImage requestId imageFile E w = (res, w') /\
     emitted w w' evs /\ filter is_request evs = [EvRequest c] /\
     cfg_data c = FormDataPayload (upload_form requestId imageFile) /\
     cfg_headers c !! "Content-Type" = Some "multipart/form-data" /\
     cfg_headers c !! "Content-Type" <> Some "application/json" /\
     (forall t, localStorage w !! "token" = Some t -> t <> EmptyString ->
        cfg_headers c !! "Authorization" = Some ("Bearer " +:+ t))).
Proof.
  split.
  - exists (form_request_config E w (FormDataPayload fd)).
    assert (Hct : cfg_headers (form_request_config E w (FormDataPayload fd))
                    !! "Content-Type" = None).
    { unfold form_request_config. simpl.
      destruct (truthy_item (localStorage w !! "token")); reflexivity. }
    assert (Hauth : forall t, localStorage w !! "token" = Some t -> t <> EmptyString ->
              cfg_headers (form_request_config E w (FormDataPayload fd))
                !! "Authorization" = Some ("Bearer " +:+ t)).
    { intros t Ht Hne. unfold form_request_config. simpl.
      rewrite Ht, (truthy_item_Some t Hne). apply lookup_singleton_eq. }
    rewrite createRequest_form_run. cbv zeta.
    destruct (transport E _) as [r|e]; do 3 eexists;
      (split; [reflexivity|]);
      (split; [unfold emitted; simpl;
               match goal with
               | |- ?a :: ?b :: ?c :: ?l = _ =>
                   change (a :: b :: c :: l) with ([a; b; c] ++ l)%list
               end; reflexivity|]);
      (split; [reflexivity|]); (split; [reflexivity|]);
      (split; [exact Hct | exact Hauth]).
  - set (c := sent_config E w POST "/customization-request-images/upload"
                (FormDataPayload (upload_form requestId imageFile))
                {[ "Content-Type" := "multipart/form-data" ]}).
    assert (Hct : cfg_headers c !! "Content-Type" = Some "multipart/form-data").
    { unfold c. rewrite sent_config_header by discriminate. reflexivity. }
    assert (Hauth : forall t, localStorage w !! "token" = Some t -> t <> EmptyString ->
              cfg_headers c !! "Authorization" = Some ("Bearer " +:+ t)).
    { intros t Ht Hne. apply sent_config_authorization; assumption. }
    exists c. rewrite uploadImage_run. cbv zeta. fold c.
    destruct (transport E c) as [r|e].
    + exists (Fulfilled (data r)), (emit (EvRequest c) w), [EvRequest c].
      split; [reflexivity|]. split; [reflexivity|]. split; [reflexivity|].
      split; [apply sent_config_data|]. split; [exact Hct|].
      split; [rewrite Hct; discriminate | exact Hauth].
    + destruct (after_rejection_emitted e (emit (EvRequest c) w))
        as (evs & Hevs & Hreq & _).
      exists (Rejected e), (after_rejection e (emit (EvRequest c) w)),
             (evs ++ [EvRequest c])%list.
      split; [reflexivity|]. split.
      { unfold emitted in *. rewrite Hevs. simpl. rewrite <- app_assoc. reflexivity. }
      split.
      { rewrite filter_app, Hreq. reflexivity. }
      split; [apply sent_config_data|]. split; [exact Hct|].
      split; [rewrite Hct; discriminate | exact Hauth].
Qed.

Lemma C4_witness :
  (exists c res w' evs,
     requestService.createRequest (FormDataPayload [("image", FormFile sample_file)])
       accepting_env signed_in_world = (res, w') /\
     emitted signed_in_world w' evs /\ filter is_request evs = [EvRequest c] /\
     cfg_headers c !! "Content-Type" = None /\
     cfg_headers c !! "Authorization" = Some "Bearer t0") /\
  (exists c res w' evs,
     requestImageService.uploadImage "42" sample_file accepting_env signed_in_world
       = (res, w') /\
     emitted signed_in_world w' evs /\ filter is_request evs = [EvRequest c] /\
     cfg_headers c !! "Content-Type" = Some "multipart/form-data" /\
     cfg_headers c !! "Authorization" = Some "Bearer t0").
Proof.
  destruct (C4_uploads_skip_json_content_type_and_keep_token
              accepting_env signed_in_world [("image", FormFile sample_file)]
              "42" sample_file)
    as [(c1 & res1 & w1 & evs1 & Hrun1 & Hev1 & Hreq1 & _ & Hct1 & Hauth1)
        (c2 & res2 & w2 & evs2 & Hrun2 & Hev2 & Hreq2 & _ & Hct2 & _ & Hauth2)].
  split.
  - exists c1, res1, w1, evs1. repeat split; try assumption.
    apply (Hauth1 "t0"); [reflexivity | discriminate].
  - exists c2, res2, w2, evs2. repeat split; try assumption.
    apply (Hauth2 "t0"); [reflexivity | discriminate].
Defined.

(** ** What a computation can emit *)

Section EmitsOnly.

Context (P : event -> bool).

Lemma emits_only_ret {A} (a : A) : emits_only P (ret a).
Proof. intros E w. exists []. split; [reflexivity | constructor]. Qed.

Lemma emits_only_throw {A} e : emits_only P (@throw A e).
Proof. intros E w. exists []. split; [reflexivity | constructor]. Qed.

Lemma emits_only_ask : emits_only P ask.
Proof. intros E w. exists []. split; [reflexivity | constructor]. Qed.

Lemma emits_only_getItem k : emits_only P (getItem k).
Proof. intros E w. exists []. split; [reflexivity | constructor]. Qed.

Lemma emits_only_prop v k : emits_only P (prop v k).
Proof. unfold prop. destruct (get_prop v k); [apply emits_only_ret | apply emits_only_throw]. Qed.

Lemma emits_only_set_location_href h : emits_only P (set_location_href h).
Proof. intros E w. exists []. split; [reflexivity | constructor]. Qed.

Lemma emits_only_setItem k v : P (EvSetItem k v) = true -> emits_only P (setItem k v).
Proof. intros HP E w. exists [EvSetItem k v]. split; [reflexivity | repeat constructor; exact HP]. Qed.

Lemma emits_only_removeItem k : P (EvRemoveItem k) = true -> emits_only P (removeItem k).
Proof. intros HP E w. exists [EvRemoveItem k]. split; [reflexivity | repeat constructor; exact HP]. Qed.

Lemma emits_only_console l : P (EvConsole l) = true -> emits_only P (console l).
Proof. intros HP E w. exists [EvConsole l]. split; [reflexivity | repeat constructor; exact HP]. Qed.

Lemma emits_only_dispatch c : P (EvRequest c) = true -> emits_only P (dispatch c).
Proof. intros HP E w. exists [EvRequest c]. split; [reflexivity | repeat constructor; exact HP]. Qed.

Lemma emits_only_then {A B} (m : M A) (f : A -> M B) (g : js_error -> M B) :
  emits_only P m -> (forall a, emits_only P (f a)) -> (forall e, emits_only P (g e)) ->
  emits_only P (then_ m f g).
Proof.
  intros Hm Hf Hg E w. unfold then_.
  destruct (Hm E w) as (evs1 & Hev1 & HP1).
  destruct (m E w) as [[a|e] w1]; simpl in Hev1.
  - destruct (Hf a E w1) as (evs2 & Hev2 & HP2).
    exists (evs2 ++ evs1)%list. split.
    + unfold emitted in *. rewrite Hev2, Hev1. apply app_assoc.
    + apply Forall_app. split; assumption.
  - destruct (Hg e E w1) as (evs2 & Hev2 & HP2).
    exists (evs2 ++ evs1)%list. split.
    + unfold emitted in *. rewrite Hev2, Hev1. apply app_assoc.
    + apply Forall_app. split; assumption.
Qed.

Lemma emits_only_bind {A B} (m : M A) (k : A -> M B) :
  emits_only P m -> (forall a, emits_only P (k a)) -> emits_only P (bind m k).
Proof.
  intros Hm Hk.
  assert (Heq : bind m k = then_ m k throw) by reflexivity.
  rewrite Heq. apply emits_only_then; auto using @emits_only_throw.
Qed.

Lemma emits_only_try_catch {A} (m : M A) (h : js_error -> M A) :
  emits_only P m -> (forall e, emits_only P (h e)) -> emits_only P (try_catch m h).
Proof. intros Hm Hh. apply emits_only_then; auto using @emits_only_ret. Qed.

End EmitsOnly.

Ltac emits_step :=
  match goal with
  | |- emits_only _ (bind _ _) => apply emits_only_bind; [|intros]
  | |- emits_only _ (then_ _ _ _) => apply emits_only_then; [|intros|intros]
  | |- emits_only _ (try_catch _ _) => apply emits_only_try_catch; [|intros]
  | |- emits_only _ (if ?b then _ else _) => destruct b
  | |- emits_only _ (let _ := _ in _) => cbv zeta
  | |- emits_only _ (ret _) => apply emits_only_ret
  | |- emits_only _ (throw _) => apply emits_only_throw
  | |- emits_only _ ask => apply emits_only_ask
  | |- emits_only _ (getItem _) => apply emits_only_getItem
  | |- emits_only _ (prop _ _) => apply emits_only_prop
  | |- emits_only _ (set_location_href _) => apply emits_only_set_location_href
  | |- emits_only _ (setItem _ _) => apply emits_only_setItem; reflexivity
  | |- emits_only _ (removeItem _) => apply emits_only_removeItem; reflexivity
  | |- emits_only _ (console _) => apply emits_only_console; reflexivity
  | |- emits_only _ (dispatch _) => apply emits_only_dispatch; reflexivity
  end.

Lemma api_request_no_toast m url d headers :
  emits_only not_toast (api.request m url d headers).
Proof.
  unfold api.request, api.request_with, request_fulfilled_with, request_rejected,
    response_fulfilled, response_rejected.
  repeat emits_step.
Qed.

Lemma facade_no_toast o : emits_only not_toast (run_op o).
Proof.
  destruct o; simpl run_op;
    unfold authService.login, authService.register, authService.logout,
      authService.getCurrentUser, userService.getUsers, userService.getUserById,
      userService.updateUser, userService.deleteUser,
      requestService.getRequests, requestService.getRequestById,
      requestService.createRequest, requestService.updateRequest,
      requestService.deleteRequest, requestImageService.getImagesByRequestId,
      requestImageService.addImage, requestImageService.uploadImage,
      requestImageService.deleteImage, proposalService.getProposals,
      proposalService.createProposal, proposalService.updateProposal,
      chatService.getMessages, chatService.sendMessage,
      api.get, api.post, api.post_with, api.put, api.delete, axios.post;
    repeat first [apply api_request_no_toast | emits_step].
Qed.

(** ** Failed calls *)

Lemma sent_config_emit E ev w m url d headers :
  sent_config E (emit ev w) m url d headers = sent_config E w m url d headers.
Proof. reflexivity. Qed.

Lemma api_request_rejected {m url d headers E w e}
    (Hnet : transport E (sent_config E w m url d headers) = Rejected e) :
  api.request m url d headers E w =
  (Rejected e,
   after_rejection e (emit (EvRequest (sent_config E w m url d headers)) w)).
Proof. rewrite api_request_run. cbv zeta. rewrite Hnet. reflexivity. Qed.

Lemma bind_api_request_rejected {B m url d headers E w e} (k : response -> M B)
    (Hnet : transport E (sent_config E w m url d headers) = Rejected e) :
  bind (api.request m url d headers) k E w =
  (Rejected e,
   after_rejection e (emit (EvRequest (sent_config E w m url d headers)) w)).
Proof. unfold bind. rewrite (api_request_rejected Hnet). reflexivity. Qed.

Lemma createRequest_json_rejected requestData E w e :
  instanceof_FormData requestData = false ->
  transport E (sent_config E w POST "/customization-requests" requestData ∅)
    = Rejected e ->
  requestService.createRequest requestData E w =
  (Rejected e,
   after_rejection e
     (emit (EvRequest (sent_config E w POST "/customization-requests" requestData ∅))
        (emit (EvConsole "api") w))).
Proof.
  intros Hjson Hnet. unfold requestService.createRequest. rewrite Hjson.
  unfold bind at 1. unfold console at 1. unfold effect at 1. unfold api.post.
  rewrite <- (sent_config_emit E (EvConsole "api") w) in Hnet.
  rewrite (bind_api_request_rejected _ Hnet). reflexivity.
Qed.

Lemma failed_call_emitted e c w :
  exists evs,
    emitted w (after_rejection e (emit (EvRequest c) w)) evs /\
    filter is_request evs = [EvRequest c] /\
    filter is_setItem evs = [].
Proof.
  destruct (after_rejection_emitted e (emit (EvRequest c) w))
    as (evs & Hevs & Hreq & Hset & _).
  exists (evs ++ [EvRequest c])%list. split; [|split].
  - unfold emitted in *. rewrite Hevs. simpl. rewrite <- app_assoc. reflexivity.
  - rewrite filter_app, Hreq. reflexivity.
  - rewrite filter_app, Hset. reflexivity.
Qed.

Lemma emitted_cons_after w w' evs ev :
  emitted (emit ev w) w' evs -> emitted w w' (evs ++ [ev]).
Proof. unfold emitted. simpl. intros ->. rewrite <- app_assoc. reflexivity. Qed.

Ltac unfold_plain_operation :=
  unfold authService.login, authService.register, userService.getUsers,
    userService.getUserById, userService.updateUser, userService.deleteUser,
    requestService.getRequests, requestService.getRequestById,
    requestService.updateRequest, requestService.deleteRequest,
    requestImageService.getImagesByRequestId, requestImageService.addImage,
    requestImageService.uploadImage, requestImageService.deleteImage,
    proposalService.getProposals, proposalService.createProposal,
    proposalService.updateProposal, chatService.getMessages,
    chatService.sendMessage,
    api.get, api.post, api.post_with, api.put, api.delete;
  cbv zeta.

(* An operation other than getCurrentUser whose own call is rejected: it
   rejects with the error of that call, after this one request and without
   a write to local storage. *)
Lemma facade_failure E e o w c :
  request_of o E w = Some c ->
  transport E c = Rejected e ->
  swallows_failure o = false ->
  exists w' evs,
    run_op o E w = (Rejected e, w') /\ emitted w w' evs /\
    filter is_request evs = [EvRequest c] /\ filter is_setItem evs = [].
Proof.
  intros Hreq Hnet Hswallow.
  destruct o; try discriminate; unfold request_of in Hreq;
    try (injection Hreq as <-; simpl run_op; unfold_plain_operation;
         rewrite (bind_api_request_rejected _ Hnet);
         match goal with
         | |- context [after_rejection e (emit (EvRequest ?c0) w)] =>
             destruct (failed_call_emitted e c0 w) as (evs & Hevs & Hrq & Hset);
             exists (after_rejection e (emit (EvRequest c0) w)), evs; auto
         end).
  (* createRequest *)
  injection Hreq as <-. simpl run_op.
  destruct (instanceof_FormData requestData) eqn:Hform.
  - destruct requestData as [|v|fd]; try discriminate.
    rewrite createRequest_form_run. cbv zeta. rewrite Hnet.
    eexists _, [EvConsole "Error uploading images:"; EvRequest _; EvConsole "api"].
    split; [reflexivity|]. split; [reflexivity|]. split; reflexivity.
  - rewrite (createRequest_json_rejected requestData E w e Hform Hnet).
    match goal with
    | |- context [after_rejection e (emit (EvRequest ?c0) ?w0)] =>
        destruct (failed_call_emitted e c0 w0) as (evs & Hevs & Hrq & Hset);
        exists (after_rejection e (emit (EvRequest c0) w0)), (evs ++ [EvConsole "api"])%list
    end.
    split; [reflexivity|]. split; [apply emitted_cons_after, Hevs|].
    rewrite !filter_app, Hrq, Hset. split; reflexivity.
Qed.

(** ** login, getCurrentUser: all paths *)

Lemma login_run E w email password :
  let c := sent_config E w POST "/auth/login" (login_body email password) ∅ in
  let w1 := emit (EvRequest c) w in
  let w2 := emit (EvConsole "Auth Login") w1 in
  authService.login email password E w =
  match transport E c with
  | Rejected e => (Rejected e, after_rejection e w1)
  | Fulfilled r =>
      match get_prop (data r) "data" with
      | None => (Rejected (TypeError "data"), w2)
      | Some inner =>
          match get_prop inner "token" with
          | None => (Rejected (TypeError "token"), w2)
          | Some token =>
              match get_prop inner "userData" with
              | None => (Rejected (TypeError "userData"), w2)
              | Some userData =>
                  (Fulfilled userData,
                   session_stored (to_string token) (stringified userData) w2)
              end
          end
      end
  end.
Proof.
  cbv zeta. unfold authService.login, api.post. unfold bind at 1.
  rewrite api_request_run. cbv zeta. fold (login_body email password).
  destruct (transport E _) as [r|e]; [|reflexivity].
  unfold bind, console, effect, prop, ret, throw. cbv beta iota.
  destruct (get_prop (data r) "data") as [inner|]; [|reflexivity].
  cbv beta iota.
  destruct (get_prop inner "token") as [token|]; [|reflexivity].
  cbv beta iota.
  destruct (get_prop inner "userData") as [userData|]; reflexivity.
Qed.

Lemma getCurrentUser_without_token E w :
  truthy_item (localStorage w !! "token") = false ->
  authService.getCurrentUser E w = (Fulfilled VNull, w).
Proof.
  intros H. unfold authService.getCurrentUser, bind, getItem. rewrite H. reflexivity.
Qed.

Lemma getCurrentUser_run E w :
  truthy_item (localStorage w !! "token") = true ->
  let c := sent_config E w GET "/auth/me" NoData ∅ in
  authService.getCurrentUser E w =
  match transport E c with
  | Fulfilled r => (Fulfilled (data r), emit (EvRequest c) w)
  | Rejected e =>
      (Fulfilled VNull,
       emit (EvRemoveItem "user")
         (with_storage (delete "user")
            (emit (EvRemoveItem "token")
               (with_storage (delete "token")
                  (after_rejection e (emit (EvRequest c) w))))))
  end.
Proof.
  intros H. cbv zeta.
  unfold authService.getCurrentUser. unfold bind at 1. unfold getItem at 1.
  rewrite H. change (negb true) with false. cbv beta iota.
  unfold try_catch, then_, api.get. unfold bind at 1.
  rewrite api_request_run. cbv zeta.
  destruct (transport E _) as [r|e]; reflexivity.
Qed.

(** C9. When the POST to /auth/login rejects, login rejects with the same
    error and calls localStorage.setItem for no key; local storage is what
    it was, up to the two removals of the response interceptor when the
    status is 401. *)
Theorem C9_failed_login_writes_nothing
    (E : env) (w : world) (email password : string) (e : js_error) :
  transport E (sent_config E w POST "/auth/login" (login_body email password) ∅)
    = Rejected e ->
  exists w' evs,
    authService.login email password E w = (Rejected e, w') /\
    emitted w w' evs /\
    (forall k v, ~ In (EvSetItem k v) evs) /\
    localStorage w' =
      (if is_401 e then delete "user" (delete "token" (localStorage w))
       else localStorage w) /\
    (is_401 e = false -> localStorage w' = localStorage w).
Proof.
  intros Hnet. pose proof (login_run E w email password) as Hrun.
  cbv zeta in Hrun. rewrite Hnet in Hrun.
  destruct (failed_call_emitted e
              (sent_config E w POST "/auth/login" (login_body email password) ∅) w)
    as (evs & Hevs & _ & Hset).
  eexists _, evs. split; [exact Hrun|]. split; [exact Hevs|]. split; [|split].
  - intros k v Hin. apply list_elem_of_In in Hin.
    assert (Hf : EvSetItem k v ∈ filter is_setItem evs).
    { apply list_elem_of_filter. split; [exact I | exact Hin]. }
    rewrite Hset in Hf. inversion Hf.
  - unfold after_rejection. destruct (is_401 e); reflexivity.
  - intros H. unfold after_rejection. rewrite H. reflexivity.
Qed.

Lemma C9_witness :
  exists w' evs,
    authService.login "a@b.com" "pw" (failing_env (http_error 500)) signed_in_world
      = (Rejected (http_error 500), w') /\
    emitted signed_in_world w' evs /\
    (forall k v, ~ In (EvSetItem k v) evs) /\
    localStorage w' = localStorage signed_in_world.
Proof.
  destruct (C9_failed_login_writes_nothing
              (failing_env (http_error 500)) signed_in_world "a@b.com" "pw"
              (http_error 500) eq_refl)
    as (w' & evs & Hrun & Hevs & Hset & _ & Hsame).
  exists w', evs. repeat split; try assumption.
  apply Hsame. reflexivity.
Defined.

(** C10. getCurrentUser resolves to null and leaves the world as it is, so
    that no request is issued, when no token is stored; when a token is
    stored and the GET of /auth/me fails, with whatever error, it removes the
    token and user entries and resolves to null instead of rejecting. *)
Theorem C10_getCurrentUser_resolves_to_null (E : env) (w : world) :
  (localStorage w !! "token" = None ->
   authService.getCurrentUser E w = (Fulfilled VNull, w)) /\
  (forall t e,
     localStorage w !! "token" = Some t -> t <> EmptyString ->
     transport E (sent_config E w GET "/auth/me" NoData ∅) = Rejected e ->
     exists w' evs,
       authService.getCurrentUser E w = (Fulfilled VNull, w') /\
       emitted w w' evs /\
       In (EvRemoveItem "token") evs /\ In (EvRemoveItem "user") evs /\
       localStorage w' !! "token" = None /\
       localStorage w' !! "user" = None).
Proof.
  split.
  - intros Hnone. apply getCurrentUser_without_token. rewrite Hnone. reflexivity.
  - intros t e Ht Hne Hnet.
    assert (Htruthy : truthy_item (localStorage w !! "token") = true).
    { rewrite Ht. apply truthy_item_Some, Hne. }
    pose proof (getCurrentUser_run E w Htruthy) as Hrun. cbv zeta in Hrun.
    rewrite Hnet in Hrun.
    destruct (failed_call_emitted e (sent_config E w GET "/auth/me" NoData ∅) w)
      as (evs & Hevs & _).
    eexists _, (EvRemoveItem "user" :: EvRemoveItem "token" :: evs).
    split; [exact Hrun|]. split; [|split; [|split; [|split]]].
    + unfold emitted in *. simpl. rewrite Hevs. reflexivity.
    + right. left. reflexivity.
    + left. reflexivity.
    + simpl. apply cleared_token.
    + simpl. apply cleared_user.
Qed.

Lemma C10_witness :
  authService.getCurrentUser (failing_env network_error) fresh_world
    = (Fulfilled VNull, fresh_world) /\
  exists w',
    authService.getCurrentUser (failing_env network_error) signed_in_world
      = (Fulfilled VNull, w') /\
    localStorage w' !! "token" = None /\
    localStorage w' !! "user" = None.
Proof.
  split.
  - apply (proj1 (C10_getCurrentUser_resolves_to_null
                    (failing_env network_error) fresh_world)).
    reflexivity.
  - destruct (proj2 (C10_getCurrentUser_resolves_to_null
                       (failing_env network_error) signed_in_world)
                "t0" network_error)
      as (w' & evs & Hrun & _ & _ & _ & Htoken & Huser);
      [reflexivity | discriminate | reflexivity |].
    exists w'. repeat split; assumption.
Defined.

(** ** The error policy of the façades *)

Lemma handleLogin_failure E e email password w :
  transport E (sent_config E (emit (EvSetLoading true) (with_loading true w))
                 POST "/auth/login" (login_body email password) ∅) = Rejected e ->
  exists w' evs,
    handleLogin email password E w = (Fulfilled tt, w') /\
    emitted w w' evs /\
    filter is_toast evs =
      [EvToast "Login failed" (error_description e "Invalid credentials") true].
Proof.
  intros Hnet.
  unfold handleLogin. unfold bind at 1. unfold setLoading at 1, effect at 1.
  unfold try_catch, then_. unfold bind at 1.
  rewrite login_run. cbv zeta. rewrite Hnet.
  match goal with
  | |- context [after_rejection e (emit (EvRequest ?c) ?w0)] =>
      destruct (after_rejection_emitted e (emit (EvRequest c) w0))
        as (evs & Hevs & _ & _ & Htoast)
  end.
  eexists _, (EvToast _ _ _ :: evs ++ [EvRequest _; EvSetLoading true])%list.
  split; [reflexivity|]. split.
  - unfold emitted in *. simpl. rewrite Hevs. simpl.
    rewrite <- app_assoc. reflexivity.
  - rewrite filter_cons_True by exact I.
    rewrite filter_app, Htoast. reflexivity.
Qed.

(** C5 as stated fails: with a token stored and a transport that rejects
    every call, getCurrentUser issues its request and resolves to null. *)
Lemma C5_counterexample :
  (forall c, transport (failing_env network_error) c = Rejected network_error) /\
  length (filter is_request
            (log (snd (run_op OpGetCurrentUser (failing_env network_error)
                         signed_in_world)))) = 1 /\
  fst (run_op OpGetCurrentUser (failing_env network_error) signed_in_world)
    = Fulfilled VNull /\
  fst (run_op OpGetCurrentUser (failing_env network_error) signed_in_world)
    <> Rejected network_error.
Proof.
  split; [reflexivity|]. split; [vm_compute; reflexivity|].
  split; [vm_compute; reflexivity|]. vm_compute. discriminate.
Qed.

(** C5, amended. When the call of a façade operation is rejected by the
    transport, the operation rejects with that very error after this one
    request (there is no retry), unless the operation is getCurrentUser;
    createRequest with a FormData payload does catch the error, but only to
    log it and throw it again.  getCurrentUser catches the error of its one
    request, removes the token and user entries and resolves to null.  No
    façade operation, in any environment, emits a notification; the login
    handler of the auth page turns the rejection of its call into one
    destructive notification, Login failed, and does not reject. *)
Theorem C5_facades_propagate_failures_except_getCurrentUser
    (E : env) (w : world) (o : facade_op) (c : config) (e : js_error) :
  request_of o E w = Some c ->
  transport E c = Rejected e ->
  (swallows_failure o = false ->
   exists w' evs,
     run_op o E w = (Rejected e, w') /\ emitted w w' evs /\
     filter is_request evs = [EvRequest c]) /\
  (forall fd, o = OpCreateRequest (FormDataPayload fd) ->
   exists w' evs,
     run_op o E w = (Rejected e, w') /\ emitted w w' evs /\
     In (EvConsole "Error uploading images:") evs) /\
  (o = OpGetCurrentUser ->
   exists w' evs,
     run_op o E w = (Fulfilled VNull, w') /\ emitted w w' evs /\
     filter is_request evs = [EvRequest c] /\
     localStorage w' !! "token" = None /\ localStorage w' !! "user" = None) /\
  (forall E0 o0 w0,
     exists evs,
       emitted w0 (snd (run_op o0 E0 w0)) evs /\
       Forall (fun ev => is_toast ev = false) evs) /\
  (forall email password,
     o = OpLogin email password ->
     exists w' evs,
       handleLogin email password E w = (Fulfilled tt, w') /\ emitted w w' evs /\
       filter is_toast evs =
         [EvToast "Login failed" (error_description e "Invalid credentials") true]).
Proof.
  intros Hreq Hnet. split; [|split; [|split; [|split]]].
  - intros Hswallow.
    destruct (facade_failure E e o w c Hreq Hnet Hswallow)
      as (w' & evs & Hrun & Hevs & Hrq & _).
    exists w', evs. auto.
  - intros fd ->. unfold request_of in Hreq. simpl in Hreq. injection Hreq as <-.
    simpl run_op. rewrite createRequest_form_run. cbv zeta. rewrite Hnet.
    eexists _, [EvConsole "Error uploading images:"; EvRequest _; EvConsole "api"].
    split; [reflexivity|]. split; [reflexivity|]. left. reflexivity.
  - intros ->. unfold request_of in Hreq. simpl run_op.
    destruct (truthy_item (localStorage w !! "token")) eqn:Htruthy;
      [|discriminate].
    injection Hreq as <-.
    rewrite (getCurrentUser_run E w Htruthy). cbv zeta. rewrite Hnet.
    destruct (failed_call_emitted e (sent_config E w GET "/auth/me" NoData ∅) w)
      as (evs & Hevs & Hrq & _).
    eexists _, (EvRemoveItem "user" :: EvRemoveItem "token" :: evs).
    split; [reflexivity|]. split; [|split; [|split]].
    + unfold emitted in *. simpl. rewrite Hevs. reflexivity.
    + rewrite filter_cons_False by (simpl; tauto).
      rewrite filter_cons_False by (simpl; tauto). exact Hrq.
    + simpl. apply cleared_token.
    + simpl. apply cleared_user.
  - intros E0 o0 w0. destruct (facade_no_toast o0 E0 w0) as (evs & Hevs & HP).
    exists evs. split; [exact Hevs|].
    eapply Forall_impl; [exact HP|].
    intros ev Hev. unfold not_toast in Hev. destruct (is_toast ev); [discriminate|reflexivity].
  - intros email password ->. unfold request_of in Hreq. injection Hreq as <-.
    apply (handleLogin_failure E e). exact Hnet.
Qed.

(* The backend refuses the list of users and nothing else: getUsers rejects
   with the error of its call.  The backend refuses /auth/me and nothing
   else: getCurrentUser resolves to null. *)
Lemma C5_witness :
  (exists w' evs,
     run_op OpGetUsers users_refused_env signed_in_world
       = (Rejected (http_error 401), w') /\
     emitted signed_in_world w' evs /\
     filter is_request evs
       = [EvRequest (sent_config users_refused_env signed_in_world GET "/users"
                       NoData ∅)]) /\
  (exists w' evs,
     run_op OpGetCurrentUser me_refused_env signed_in_world = (Fulfilled VNull, w') /\
     emitted signed_in_world w' evs /\
     filter is_request evs
       = [EvRequest (sent_config me_refused_env signed_in_world GET "/auth/me"
                       NoData ∅)] /\
     localStorage w' !! "token" = None /\ localStorage w' !! "user" = None).
Proof.
  split.
  - apply (proj1 (C5_facades_propagate_failures_except_getCurrentUser
                    users_refused_env signed_in_world OpGetUsers
                    (sent_config users_refused_env signed_in_world GET "/users"
                       NoData ∅)
                    (http_error 401) eq_refl eq_refl)).
    reflexivity.
  - apply (proj1 (proj2 (proj2 (C5_facades_propagate_failures_except_getCurrentUser
                    me_refused_env signed_in_world OpGetCurrentUser
                    (sent_config me_refused_env signed_in_world GET "/auth/me"
                       NoData ∅)
                    network_error eq_refl eq_refl)))).
    reflexivity.
Defined.

(** ** The auth page *)

Lemma emitted_with_storage f w w' evs :
  emitted w w' evs -> emitted w (with_storage f w') evs.
Proof. exact id. Qed.

Lemma emitted_with_href h w w' evs :
  emitted w w' evs -> emitted w (with_href h w') evs.
Proof. exact id. Qed.

Lemma emitted_with_loading b w w' evs :
  emitted w w' evs -> emitted w (with_loading b w') evs.
Proof. exact id. Qed.

Lemma emitted_with_user v w w' evs :
  emitted w w' evs -> emitted w (with_user v w') evs.
Proof. exact id. Qed.

(* Reads the events off a world that is written as a chain of updates. *)
Ltac read_events :=
  unfold session_stored, session_expired;
  repeat first [ apply emitted_emit | apply emitted_with_storage
               | apply emitted_with_href | apply emitted_with_loading
               | apply emitted_with_user ];
  apply emitted_refl.

(* Every path of the login handler: the flag is raised once and stays up. *)
Lemma handleLogin_loading E w email password :
  exists w' evs,
    handleLogin email password E w = (Fulfilled tt, w') /\
    emitted w w' evs /\
    filter is_setLoading evs = [EvSetLoading true] /\
    last evs = Some (EvSetLoading true) /\
    loading w' = true.
Proof.
  unfold handleLogin. unfold bind at 1. unfold setLoading at 1, effect at 1.
  unfold try_catch, then_. unfold bind at 1.
  rewrite login_run. cbv zeta.
  destruct (transport E _) as [r|e].
  - destruct (get_prop (data r) "data") as [inner|].
    + destruct (get_prop inner "token") as [token|].
      * destruct (get_prop inner "userData") as [userData|].
        -- do 2 eexists. split; [reflexivity|]. split; [read_events|].
           repeat split.
        -- do 2 eexists. split; [reflexivity|]. split; [read_events|].
           repeat split.
      * do 2 eexists. split; [reflexivity|]. split; [read_events|].
        repeat split.
    + do 2 eexists. split; [reflexivity|]. split; [read_events|].
      repeat split.
  - unfold after_rejection. destruct (is_401 e).
    + do 2 eexists. split; [reflexivity|]. split; [read_events|].
      repeat split.
    + do 2 eexists. split; [reflexivity|]. split; [read_events|].
      repeat split.
Qed.

(* Every path of the register handler: it resolves, the flag is raised and
   lowered again, nothing is written to local storage, no navigation. *)
Lemma handleRegister_run E w name email password r :
  exists w' evs,
    handleRegister name email password r E w = (Fulfilled tt, w') /\
    emitted w w' evs /\
    filter is_setLoading evs = [EvSetLoading false; EvSetLoading true] /\
    head evs = Some (EvSetLoading false) /\
    last evs = Some (EvSetLoading true) /\
    loading w' = false /\
    filter is_navigate evs = [] /\
    filter is_setItem evs = [] /\
    filter is_request evs = [] /\
    localStorage w' = localStorage w /\
    location_href w' = location_href w.
Proof.
  unfold handleRegister. unfold bind at 1. unfold setLoading at 1, effect at 1.
  unfold try_finally, try_catch, then_, bind, ask, fetch, json, prop, toast,
    setLoading, effect, ret, throw.
  cbv beta iota.
  destruct (fetch_backend E _) as [resp|e].
  - destruct (fr_ok resp); simpl negb; cbv beta iota.
    + do 2 eexists. split; [reflexivity|]. split; [read_events|].
      repeat split.
    + destruct (fr_json resp) as [errorData|e].
      * destruct (get_prop errorData "message") as [msg|].
        -- do 2 eexists. split; [reflexivity|]. split; [read_events|].
           repeat split.
        -- do 2 eexists. split; [reflexivity|]. split; [read_events|].
           repeat split.
      * do 2 eexists. split; [reflexivity|]. split; [read_events|].
        repeat split.
  - do 2 eexists. split; [reflexivity|]. split; [read_events|].
    repeat split.
Qed.

(* The register handler, path by path. *)
Lemma handleRegister_fetch E w name email password r :
  handleRegister name email password r E w =
  let q := register_fetch E name email password r in
  let w1 := emit (EvFetch q) (emit (EvSetLoading true) (with_loading true w)) in
  let settle toast_event :=
    (Fulfilled tt, emit (EvSetLoading false) (with_loading false (emit toast_event w1))) in
  let failed e :=
    settle (EvToast "Registration failed"
              (error_description e "Could not create account") true) in
  match fetch_backend E q with
  | Rejected e => failed e
  | Fulfilled resp =>
      if fr_ok resp
      then settle (EvToast "Registration successful" "Welcome to StyleVerse." false)
      else
        match fr_json resp with
        | Rejected e => failed e
        | Fulfilled errorData =>
            match get_prop errorData "message" with
            | None => failed (TypeError "message")
            | Some msg =>
                failed (new_Error (to_string (if truthy msg then msg
                                              else VStr "Registration failed")))
            end
        end
  end.
Proof.
  cbv zeta.
  unfold handleRegister. unfold bind at 1. unfold setLoading at 1, effect at 1.
  unfold try_finally, try_catch, then_, bind, ask, fetch, json, prop, toast,
    setLoading, effect, ret, throw.
  cbv beta iota. fold (register_fetch E name email password r).
  destruct (fetch_backend E _) as [resp|e]; [|reflexivity].
  destruct (fr_ok resp); simpl negb; cbv beta iota; [reflexivity|].
  destruct (fr_json resp) as [errorData|e]; [|reflexivity].
  destruct (get_prop errorData "message") as [msg|]; reflexivity.
Qed.

(** C6. The login handler calls setLoading(true) first and calls setLoading
    nowhere else: on every path, success or failure, the flag is true when
    the handler has settled.  The register handler raises the flag first and
    lowers it last, in its finally block, on every path, and never
    navigates. *)
Theorem C6_login_leaves_loading_set_register_resets_it
    (E : env) (w : world) (email password name : string) (r : role) :
  (exists w' evs,
     handleLogin email password E w = (Fulfilled tt, w') /\
     emitted w w' evs /\
     last evs = Some (EvSetLoading true) /\
     filter is_setLoading evs = [EvSetLoading true] /\
     ~ In (EvSetLoading false) evs /\
     loading w' = true) /\
  (exists w' evs,
     handleRegister name email password r E w = (Fulfilled tt, w') /\
     emitted w w' evs /\
     last evs = Some (EvSetLoading true) /\
     head evs = Some (EvSetLoading false) /\
     filter is_setLoading evs = [EvSetLoading false; EvSetLoading true] /\
     loading w' = false /\
     filter is_navigate evs = []).
Proof.
  split.
  - destruct (handleLogin_loading E w email password)
      as (w' & evs & Hrun & Hevs & Hfilter & Hlast & Hloading).
    exists w', evs. repeat split; try assumption.
    intros Hin. apply list_elem_of_In in Hin.
    assert (Hf : EvSetLoading false ∈ filter is_setLoading evs).
    { apply list_elem_of_filter. split; [exact I | exact Hin]. }
    rewrite Hfilter in Hf. apply list_elem_of_singleton in Hf. discriminate.
  - destruct (handleRegister_run E w name email password r)
      as (w' & evs & Hrun & Hevs & Hfilter & Hhead & Hlast & Hloading & Hnav & _).
    exists w', evs. repeat split; assumption.
Qed.

(** ** Registration and the session *)

(** C8 as stated fails: the backend accepts the registration submitted
    through the auth page, the handler settles, and local storage has
    neither a token nor a user entry. *)
Lemma C8_counterexample :
  (forall q, exists resp,
     fetch_backend accepting_env q = Fulfilled resp /\ fr_ok resp = true) /\
  fst (handleRegister "Ada" "ada@example.com" "pw" designer accepting_env fresh_world)
    = Fulfilled tt /\
  localStorage
    (snd (handleRegister "Ada" "ada@example.com" "pw" designer accepting_env
            fresh_world)) !! "token" = None /\
  localStorage
    (snd (handleRegister "Ada" "ada@example.com" "pw" designer accepting_env
            fresh_world)) !! "user" = None.
Proof.
  split.
  - intros q. eexists. split; reflexivity.
  - repeat split; vm_compute; reflexivity.
Qed.

(** C8, amended. The session of a registration is created by
    authService.register: when the backend accepts the POST of
    /auth/register and answers with token and user, both are stored.  A
    registration submitted through the auth page does not go through
    authService.register: handleRegister posts to the base URL followed by
    /auth/register with fetch, once, and, whatever the backend answers, it
    calls neither localStorage.setItem nor the shared client and leaves local
    storage as it found it. *)
Theorem C8_register_facade_creates_the_session_the_auth_page_does_not
    (E : env) (w : world) (name email password : string) (r : role) :
  (forall registration resp token profile,
     transport E (sent_config E w POST "/auth/register"
                    (JsonData (RegisterData_value registration)) ∅) = Fulfilled resp ->
     get_prop (data resp) "token" = Some (VStr token) ->
     get_prop (data resp) "user" = Some profile ->
     exists w',
       authService.register registration E w = (Fulfilled profile, w') /\
       localStorage w' !! "token" = Some token /\
       localStorage w' !! "user" = Some (stringified profile)) /\
  (exists w' evs,
     handleRegister name email password r E w = (Fulfilled tt, w') /\
     emitted w w' evs /\
     filter is_fetch evs = [EvFetch (register_fetch E name email password r)] /\
     fq_method (register_fetch E name email password r) = POST /\
     fq_url (register_fetch E name email password r)
       = API_URL E +:+ "/auth/register" /\
     filter is_setItem evs = [] /\
     filter is_request evs = [] /\
     localStorage w' = localStorage w).
Proof.
  split.
  - intros registration resp token profile Hnet Htoken Huser.
    eexists. split.
    + apply (register_fulfilled E w registration resp (VStr token) profile);
        assumption.
    + split; [apply session_stored_token | apply session_stored_user].
  - rewrite handleRegister_fetch. cbv zeta.
    destruct (fetch_backend E _) as [resp|e].
    + destruct (fr_ok resp).
      * do 2 eexists. split; [reflexivity|]. split; [read_events|]. repeat split.
      * destruct (fr_json resp) as [errorData|e].
        -- destruct (get_prop errorData "message") as [msg|];
             do 2 eexists; (split; [reflexivity|]); (split; [read_events|]);
             repeat split.
        -- do 2 eexists. split; [reflexivity|]. split; [read_events|].
           repeat split.
    + do 2 eexists. split; [reflexivity|]. split; [read_events|]. repeat split.
Qed.

(* The façade on a backend that accepts the registration; the handler of the
   page on a backend that refuses everything but its fetch. *)
Lemma C8_witness :
  (exists w',
     authService.register sample_registration accepting_env fresh_world
       = (Fulfilled register_profile, w') /\
     localStorage w' !! "token" = Some "t2" /\
     localStorage w' !! "user" = Some (stringified register_profile)) /\
  (exists w' evs,
     handleRegister "Ada" "ada@example.com" "pw" designer accepting_env fresh_world
       = (Fulfilled tt, w') /\
     emitted fresh_world w' evs /\
     filter is_fetch evs
       = [EvFetch (register_fetch accepting_env "Ada" "ada@example.com" "pw"
                     designer)] /\
     filter is_setItem evs = [] /\
     filter is_request evs = [] /\
     localStorage w' = localStorage fresh_world).
Proof.
  destruct (C8_register_facade_creates_the_session_the_auth_page_does_not
              accepting_env fresh_world "Ada" "ada@example.com" "pw" designer)
    as (Hfacade & w' & evs & Hrun & Hevs & Hfetch & _ & _ & Hset & Hreq & Hstore).
  split.
  - apply (Hfacade sample_registration register_response "t2" register_profile);
      reflexivity.
  - exists w', evs. repeat split; assumption.
Defined.

(** ** Query strings *)

Lemma fold_append_filter filters acc :
  fold_left append_filter filters acc =
  (acc ++ map entry_param (List.filter (fun entry => truthy (snd entry)) filters))%list.
Proof.
  revert acc. induction filters as [|[k v] rest IH]; intros acc; simpl.
  - symmetry. apply app_nil_r.
  - rewrite IH. unfold append_filter, URLSearchParams.append. simpl.
    destruct (truthy v); simpl.
    + rewrite <- app_assoc. reflexivity.
    + reflexivity.
Qed.

Lemma filter_params_spec filters :
  filter_params filters =
  map entry_param (List.filter (fun entry => truthy (snd entry)) filters).
Proof. unfold filter_params. apply fold_append_filter. Qed.




Lemma api_get_data_logged url E w :
  In (EvRequest (sent_config E w GET url NoData ∅))
     (log (snd ((await response <- api.get url; ret (data response)) E w))).
Proof.
  unfold api.get, bind. rewrite api_request_run. cbv zeta.
  destruct (transport E _) as [r|e]; simpl.
  - left. reflexivity.
  - unfold after_rejection. destruct (is_401 e); simpl; auto.
Qed.




(** ** Further facts about the interceptors *)

(* A rejection without a 401 response passes through unchanged. *)
Lemma other_rejections_only_propagate m url d headers E w e :
  transport E (sent_config E w m url d headers) = Rejected e ->
  is_401 e = false ->
  api.request m url d headers E w =
  (Rejected e, emit (EvRequest (sent_config E w m url d headers)) w).
Proof.
  intros Hnet Hother. rewrite api_request_run. cbv zeta. rewrite Hnet.
  unfold after_rejection. rewrite Hother. reflexivity.
Qed.

Lemma after_rejection_emit_storage e ev w :
  localStorage (after_rejection e (emit ev w)) = localStorage (after_rejection e w) /\
  location_href (after_rejection e (emit ev w)) = location_href (after_rejection e w).
Proof. unfold after_rejection. destruct (is_401 e); split; reflexivity. Qed.

(** X2. Whichever operation of the façades has its call through the shared
    client answered with a 401, the token and user entries are gone
    afterwards and window.location.href is /auth.  The premise is the
    rejection of the operation's own request; logout makes no request and
    createRequest with a FormData payload does not use the shared client. *)
Lemma facade_unauthorized E e r o w c :
  request_of o E w = Some c ->
  transport E c = Rejected e ->
  err_response e = Some r -> status r = 401%Z ->
  uses_shared_client o = true ->
  localStorage (snd (run_op o E w)) !! "token" = None /\
  localStorage (snd (run_op o E w)) !! "user" = None /\
  location_href (snd (run_op o E w)) = "/auth".
Proof.
  intros Hreq Hnet Hresp Hstatus Hshared.
  pose proof (is_401_status e r Hresp Hstatus) as H401.
  assert (Hgoal : forall c0 w0,
            localStorage (after_rejection e (emit (EvRequest c0) w0)) !! "token" = None /\
            localStorage (after_rejection e (emit (EvRequest c0) w0)) !! "user" = None /\
            location_href (after_rejection e (emit (EvRequest c0) w0)) = "/auth").
  { intros c0 w0. unfold after_rejection. rewrite H401. simpl.
    auto using cleared_token, cleared_user. }
  destruct o; try discriminate; unfold request_of in Hreq;
    try (injection Hreq as <-; simpl run_op; unfold_plain_operation;
         rewrite (bind_api_request_rejected _ Hnet); apply Hgoal).
  - (* getCurrentUser *)
    simpl run_op.
    destruct (truthy_item (localStorage w !! "token")) eqn:Htruthy;
      [|discriminate].
    injection Hreq as <-.
    rewrite (getCurrentUser_run E w Htruthy). cbv zeta. rewrite Hnet.
    unfold after_rejection. rewrite H401. simpl.
    auto using cleared_token, cleared_user.
  - (* createRequest with a payload that is not a FormData *)
    injection Hreq as <-. simpl run_op.
    destruct requestData as [|v|fd]; try discriminate.
    + rewrite (createRequest_json_rejected NoData E w e eq_refl Hnet). apply Hgoal.
    + rewrite (createRequest_json_rejected (JsonData v) E w e eq_refl Hnet).
      apply Hgoal.
Qed.

(** X3. createRequest with a FormData payload does not pass through the
    interceptors of the shared client: when its request is rejected, with a
    401 or anything else, the operation rejects with that error and local
    storage and window.location.href are what they were. *)
Lemma createRequest_form_keeps_session E e fd w :
  transport E (form_request_config E w (FormDataPayload fd)) = Rejected e ->
  fst (requestService.createRequest (FormDataPayload fd) E w) = Rejected e /\
  localStorage (snd (requestService.createRequest (FormDataPayload fd) E w))
    = localStorage w /\
  location_href (snd (requestService.createRequest (FormDataPayload fd) E w))
    = location_href w.
Proof.
  intros Hnet. rewrite createRequest_form_run. cbv zeta. rewrite Hnet.
  repeat split.
Qed.

(** ** Sample runs *)

Example stringify_scenario_profile :
  stringify scenario_profile = Some ("{" +:+ dq +:+ "id" +:+ dq +:+ ":1}").
Proof. reflexivity. Qed.

Example stringify_skips_undefined_properties :
  stringify (VObj [("a", VUndefined); ("b", VArr [VUndefined; VNum (num "-3"); VBool true])])
  = Some ("{" +:+ dq +:+ "b" +:+ dq +:+ ":[null,-3,true]}").
Proof. reflexivity. Qed.

Example quote_escapes :
  quote (String dquote (String "010"%char "x"))
  = dq +:+ String backslash dq +:+ String backslash "nx" +:+ dq.
Proof. reflexivity. Qed.

Example to_string_array :
  to_string (VArr [VNum (num "1"); VNull; VStr "a"; VArr [VBool false]])
  = "1,,a,false".
Proof. reflexivity. Qed.

Example encode_reserved :
  URLSearchParams.toString [("q", "a b&c"); ("n", "10")] = "q=a+b%26c&n=10".
Proof. reflexivity. Qed.

Example API_URL_default : API_URL accepting_env = "http://localhost:8000/api".
Proof. reflexivity. Qed.

Example login_then_request_carries_token :
  cfg_headers
    (sent_config accepting_env
       (snd (authService.login "a@b.com" "pw" accepting_env fresh_world))
       GET "/users" NoData ∅) !! "Authorization" = Some "Bearer t1".
Proof. vm_compute. reflexivity. Qed.

Example logout_clears_session :
  localStorage (snd (authService.logout accepting_env signed_in_world)) = ∅.
Proof. vm_compute. reflexivity. Qed.

Example empty_token_is_not_attached :
  cfg_headers
    (sent_config accepting_env (world_with (<["token" := EmptyString]> ∅))
       GET "/users" NoData ∅) !! "Authorization" = None.
Proof. vm_compute. reflexivity. Qed.

Example handleLogin_success_log :
  log (snd (handleLogin "a@b.com" "pw" accepting_env fresh_world)) =
  [EvNavigate "/";
   EvToast "Login successful" "Welcome back to StyleVerse." false;
   EvSetUser scenario_profile;
   EvSetItem "user" ("{" +:+ dq +:+ "id" +:+ dq +:+ ":1}");
   EvSetItem "token" "t1";
   EvConsole "Auth Login";
   EvRequest (sent_config accepting_env fresh_world POST "/auth/login"
                (login_body "a@b.com" "pw") ∅);
   EvSetLoading true].
Proof. vm_compute. reflexivity. Qed.

(* login does not accept the shape that register reads: with token and user
   directly under response.data, response.data.data is undefined and the
   destructuring raises. *)
Example login_rejects_the_register_shape :
  fst (authService.login "a@b.com" "pw"
         {| VITE_API_URL := None;
            transport := fun _ => Fulfilled register_response;
            fetch_backend := fun _ => Rejected network_error |} fresh_world)
  = Rejected (TypeError "token").
Proof. vm_compute. reflexivity. Qed.

(** ** Further properties of the client *)

(* Only the list of users is refused. *)
Lemma X2_witness :
  localStorage (snd (run_op OpGetUsers users_refused_env signed_in_world))
    !! "token" = None /\
  localStorage (snd (run_op OpGetUsers users_refused_env signed_in_world))
    !! "user" = None /\
  location_href (snd (run_op OpGetUsers users_refused_env signed_in_world)) = "/auth".
Proof.
  apply (facade_unauthorized users_refused_env (http_error 401)
           {| status := 401; data := VNull |} OpGetUsers signed_in_world
           (sent_config users_refused_env signed_in_world GET "/users" NoData ∅));
    reflexivity.
Defined.

Lemma X3_witness :
  fst (requestService.createRequest (FormDataPayload [("image", FormFile sample_file)])
         (failing_env (http_error 401)) signed_in_world)
    = Rejected (http_error 401) /\
  localStorage
    (snd (requestService.createRequest (FormDataPayload [("image", FormFile sample_file)])
            (failing_env (http_error 401)) signed_in_world))
    = localStorage signed_in_world /\
  location_href
    (snd (requestService.createRequest (FormDataPayload [("image", FormFile sample_file)])
            (failing_env (http_error 401)) signed_in_world))
    = location_href signed_in_world.
Proof.
  apply (createRequest_form_keeps_session (failing_env (http_error 401))
           (http_error 401) [("image", FormFile sample_file)] signed_in_world).
  reflexivity.
Defined.

(** X1. A call on the shared client that does not end in a 401 changes
    nothing but the log: when the transport fulfils, or rejects with an error
    that has no response or a response with another status, the call settles
    exactly as the transport did, one request has left, and local storage and
    window.location.href are untouched. *)
Theorem X1_only_a_401_touches_the_session
    (E : env) (w : world) (m : method) (url : string) (d : payload)
    (headers : gmap string string) :
  (forall e, transport E (sent_config E w m url d headers) = Rejected e ->
     err_response e = None \/
     exists r, err_response e = Some r /\ status r <> 401%Z) ->
  api.request m url d headers E w =
    (transport E (sent_config E w m url d headers),
     emit (EvRequest (sent_config E w m url d headers)) w) /\
  localStorage (snd (api.request m url d headers E w)) = localStorage w /\
  location_href (snd (api.request m url d headers E w)) = location_href w.
Proof.
  intros Hother.
  assert (Hrun : api.request m url d headers E w =
                 (transport E (sent_config E w m url d headers),
                  emit (EvRequest (sent_config E w m url d headers)) w)).
  { rewrite api_request_run. cbv zeta.
    destruct (transport E (sent_config E w m url d headers)) as [r|e] eqn:Hnet;
      [reflexivity|].
    assert (H401 : is_401 e = false).
    { unfold is_401. destruct (Hother e eq_refl) as [-> | (r & -> & Hr)];
        [reflexivity|]. apply Z.eqb_neq, Hr. }
    unfold after_rejection. rewrite H401. reflexivity. }
  rewrite Hrun. repeat split.
Qed.

Lemma X1_witness :
  api.request GET "/users" NoData ∅ (failing_env (http_error 500)) signed_in_world =
    (Rejected (http_error 500),
     emit (EvRequest (sent_config (failing_env (http_error 500)) signed_in_world
                        GET "/users" NoData ∅)) signed_in_world) /\
  localStorage (snd (api.request GET "/users" NoData ∅ (failing_env (http_error 500))
                       signed_in_world)) = localStorage signed_in_world /\
  location_href (snd (api.request GET "/users" NoData ∅ (failing_env (http_error 500))
                        signed_in_world)) = location_href signed_in_world.
Proof.
  apply (X1_only_a_401_touches_the_session (failing_env (http_error 500))
           signed_in_world GET "/users" NoData ∅).
  intros e He. injection He as <-. right.
  exists {| status := 500; data := VNull |}. split; [reflexivity | discriminate].
Defined.

Lemma other_keys_after_clear (m : gmap string string) k :
  k <> "token" -> k <> "user" -> delete "user" (delete "token" m) !! k = m !! k.
Proof. intros Ht Hu. rewrite !lookup_delete_ne by congruence. reflexivity. Qed.

Lemma other_keys_after_store (m : gmap string string) t u k :
  k <> "token" -> k <> "user" ->
  <["user" := u]> (<["token" := t]> m) !! k = m !! k.
Proof. intros Ht Hu. rewrite !lookup_insert_ne by congruence. reflexivity. Qed.

Lemma sent_config_without_token E w m url d headers :
  truthy_item (localStorage w !! "token") = false ->
  sent_config E w m url d headers =
  {| cfg_method := m; cfg_baseURL := Some (API_URL E); cfg_url := url;
     cfg_headers := headers ∪ default_headers; cfg_data := d |}.
Proof. intros H. unfold sent_config. rewrite H. reflexivity. Qed.

(** X4. logout resolves to true without a request, removes the token and
    user entries and nothing else, and does not move the page.  It can be
    repeated without further effect on local storage, and the request
    interceptor adds no Authorization header to the calls that follow. *)
Theorem X4_logout_ends_the_session (E : env) (w : world) :
  exists w',
    authService.logout E w = (Fulfilled (VBool true), w') /\
    emitted w w' [EvRemoveItem "user"; EvRemoveItem "token"] /\
    localStorage w' !! "token" = None /\
    localStorage w' !! "user" = None /\
    (forall k, k <> "token" -> k <> "user" ->
       localStorage w' !! k = localStorage w !! k) /\
    location_href w' = location_href w /\
    localStorage (snd (authService.logout E w')) = localStorage w' /\
    (forall m url d headers,
       cfg_headers (sent_config E w' m url d headers) = headers ∪ default_headers).
Proof.
  eexists. split; [reflexivity|]. split; [reflexivity|]. simpl.
  split; [apply cleared_token|]. split; [apply cleared_user|].
  split; [intros k Ht Hu; apply other_keys_after_clear; assumption|].
  split; [reflexivity|]. split.
  - apply map_eq. intros k.
    destruct (decide (k = "user")) as [->|Hu]; [rewrite !lookup_delete_eq; reflexivity|].
    destruct (decide (k = "token")) as [->|Ht].
    + rewrite !(lookup_delete_ne _ "user" "token") by discriminate.
      rewrite !lookup_delete_eq. reflexivity.
    + rewrite !lookup_delete_ne by congruence. reflexivity.
  - intros m url d headers. rewrite sent_config_without_token; [reflexivity|].
    simpl. rewrite cleared_token. reflexivity.
Qed.

Lemma register_run E w userData :
  let c := sent_config E w POST "/auth/register"
             (JsonData (RegisterData_value userData)) ∅ in
  let w1 := emit (EvRequest c) w in
  authService.register userData E w =
  match transport E c with
  | Rejected e => (Rejected e, after_rejection e w1)
  | Fulfilled r =>
      match get_prop (data r) "token" with
      | None => (Rejected (TypeError "token"), w1)
      | Some token =>
          match get_prop (data r) "user" with
          | None => (Rejected (TypeError "user"), w1)
          | Some user =>
              (Fulfilled user,
               session_stored (to_string token) (stringified user) w1)
          end
      end
  end.
Proof.
  cbv zeta. unfold authService.register, api.post. unfold bind at 1.
  rewrite api_request_run. cbv zeta.
  destruct (transport E _) as [r|e]; [|reflexivity].
  unfold bind, prop, ret, throw. cbv beta iota.
  destruct (get_prop (data r) "token") as [token|]; [|reflexivity].
  cbv beta iota.
  destruct (get_prop (data r) "user") as [user|]; reflexivity.
Qed.

Lemma sent_config_after_session_stored E w t u m url d headers :
  t <> EmptyString ->
  cfg_headers (sent_config E (session_stored t u w) m url d headers)
    !! "Authorization" = Some ("Bearer " +:+ t).
Proof.
  intros Ht. apply sent_config_authorization; [|exact Ht].
  apply session_stored_token.
Qed.

(** X5. A successful login or register makes the calls that follow carry the
    token: when the response holds a non-empty string token, every later
    call on the shared client is sent with Authorization: Bearer token, and
    getCurrentUser no longer answers null without asking the backend. *)
Theorem X5_session_is_used_by_the_next_call
    (E : env) (w : world) (t : string) :
  t <> EmptyString ->
  (forall email password r inner userData,
     transport E (sent_config E w POST "/auth/login" (login_body email password) ∅)
       = Fulfilled r ->
     get_prop (data r) "data" = Some inner ->
     get_prop inner "token" = Some (VStr t) ->
     get_prop inner "userData" = Some userData ->
     forall m url d headers,
       let w1 := snd (authService.login email password E w) in
       In (EvRequest (sent_config E w1 m url d headers))
          (log (snd (api.request m url d headers E w1))) /\
       cfg_headers (sent_config E w1 m url d headers) !! "Authorization"
         = Some ("Bearer " +:+ t) /\
       truthy_item (localStorage w1 !! "token") = true) /\
  (forall registration r profile,
     transport E (sent_config E w POST "/auth/register"
                    (JsonData (RegisterData_value registration)) ∅) = Fulfilled r ->
     get_prop (data r) "token" = Some (VStr t) ->
     get_prop (data r) "user" = Some profile ->
     forall m url d headers,
       let w1 := snd (authService.register registration E w) in
       In (EvRequest (sent_config E w1 m url d headers))
          (log (snd (api.request m url d headers E w1))) /\
       cfg_headers (sent_config E w1 m url d headers) !! "Authorization"
         = Some ("Bearer " +:+ t) /\
       truthy_item (localStorage w1 !! "token") = true).
Proof.
  intros Ht. split.
  - intros email password r inner userData Hnet Hdata Htoken Huser m url d headers.
    cbv zeta.
    rewrite (login_fulfilled E w email password r inner (VStr t) userData
               Hnet Hdata Htoken Huser).
    cbn [snd to_string].
    split; [apply api_request_logged|].
    split; [apply sent_config_after_session_stored, Ht|].
    rewrite session_stored_token. apply truthy_item_Some, Ht.
  - intros registration r profile Hnet Htoken Huser m url d headers. cbv zeta.
    rewrite (register_fulfilled E w registration r (VStr t) profile
               Hnet Htoken Huser).
    cbn [snd to_string].
    split; [apply api_request_logged|].
    split; [apply sent_config_after_session_stored, Ht|].
    rewrite session_stored_token. apply truthy_item_Some, Ht.
Qed.

Lemma X5_witness :
  cfg_headers
    (sent_config accepting_env
       (snd (authService.login "a@b.com" "pw" accepting_env fresh_world))
       DELETE "/users/3" NoData ∅) !! "Authorization" = Some "Bearer t1" /\
  cfg_headers
    (sent_config accepting_env
       (snd (authService.register sample_registration accepting_env fresh_world))
       DELETE "/users/3" NoData ∅) !! "Authorization" = Some "Bearer t2".
Proof.
  assert (H1 : "t1" <> EmptyString) by discriminate.
  assert (H2 : "t2" <> EmptyString) by discriminate.
  split.
  - apply (proj1 (X5_session_is_used_by_the_next_call accepting_env fresh_world
                    "t1" H1)
             "a@b.com" "pw" scenario_response
             (VObj [("token", VStr "t1"); ("userData", scenario_profile)])
             scenario_profile eq_refl eq_refl eq_refl eq_refl
             DELETE "/users/3" NoData ∅).
  - apply (proj2 (X5_session_is_used_by_the_next_call accepting_env fresh_world
                    "t2" H2)
             sample_registration register_response register_profile
             eq_refl eq_refl eq_refl DELETE "/users/3" NoData ∅).
Defined.

(** X6. What login does with a response that is not of the expected shape.
    When response.data or response.data.data is undefined or null the
    destructuring raises: login rejects after its one request and writes
    nothing.  When response.data.data is there but has no token and no
    userData, login does not reject: it resolves to undefined and stores the
    text undefined under both keys, so that the calls that follow are sent
    with Authorization: Bearer undefined. *)
Theorem X6_login_with_an_unexpected_response
    (E : env) (w : world) (email password : string) (r : response) :
  transport E (sent_config E w POST "/auth/login" (login_body email password) ∅)
    = Fulfilled r ->
  ((get_prop (data r) "data" = None \/
    get_prop (data r) "data" = Some VUndefined \/
    get_prop (data r) "data" = Some VNull) ->
   exists e w',
     authService.login email password E w = (Rejected e, w') /\
     instanceof_Error e = true /\
     localStorage w' = localStorage w /\
     emitted w w' [EvConsole "Auth Login";
                   EvRequest (sent_config E w POST "/auth/login"
                                (login_body email password) ∅)]) /\
  (forall inner,
     get_prop (data r) "data" = Some inner ->
     get_prop inner "token" = Some VUndefined ->
     get_prop inner "userData" = Some VUndefined ->
     exists w',
       authService.login email password E w = (Fulfilled VUndefined, w') /\
       localStorage w' !! "token" = Some "undefined" /\
       localStorage w' !! "user" = Some "undefined" /\
       forall m url d headers,
         cfg_headers (sent_config E w' m url d headers) !! "Authorization"
           = Some "Bearer undefined").
Proof.
  intros Hnet. pose proof (login_run E w email password) as Hrun.
  cbv zeta in Hrun. rewrite Hnet in Hrun. split.
  - intros [Hnone | [Hundef | Hnull]].
    + rewrite Hnone in Hrun. do 2 eexists. split; [exact Hrun|]. repeat split.
    + rewrite Hundef in Hrun. simpl in Hrun.
      do 2 eexists. split; [exact Hrun|]. repeat split.
    + rewrite Hnull in Hrun. simpl in Hrun.
      do 2 eexists. split; [exact Hrun|]. repeat split.
  - intros inner Hdata Htoken Huser.
    rewrite Hdata, Htoken, Huser in Hrun.
    eexists. split; [exact Hrun|].
    split; [apply session_stored_token|]. split; [apply session_stored_user|].
    intros m url d headers.
    apply (sent_config_after_session_stored E _ "undefined"). discriminate.
Qed.

Lemma X6_witness :
  exists w',
    authService.login "a@b.com" "pw" hollow_env fresh_world
      = (Fulfilled VUndefined, w') /\
    localStorage w' !! "token" = Some "undefined" /\
    localStorage w' !! "user" = Some "undefined" /\
    cfg_headers (sent_config hollow_env w' GET "/users" NoData ∅) !! "Authorization"
      = Some "Bearer undefined".
Proof.
  destruct (proj2 (X6_login_with_an_unexpected_response hollow_env fresh_world
                     "a@b.com" "pw"
                     {| status := 200; data := VObj [("data", VObj [])] |} eq_refl)
              (VObj []) eq_refl eq_refl eq_refl)
    as (w' & Hrun & Htoken & Huser & Hnext).
  exists w'. repeat split; try assumption. apply Hnext.
Defined.

(** ** The session across the façades *)

Lemma clear_twice (m : gmap string string) :
  delete "user" (delete "token" (delete "user" (delete "token" m)))
  = delete "user" (delete "token" m).
Proof.
  apply map_eq. intros k.
  destruct (decide (k = "user")) as [->|Hu]; [rewrite !lookup_delete_eq; reflexivity|].
  destruct (decide (k = "token")) as [->|Ht].
  - rewrite !(lookup_delete_ne _ "user" "token") by discriminate.
    rewrite !lookup_delete_eq. reflexivity.
  - rewrite !lookup_delete_ne by congruence. reflexivity.
Qed.

Lemma after_rejection_step e w0 w :
  localStorage w0 = localStorage w -> location_href w0 = location_href w ->
  session_step w (after_rejection e w0).
Proof.
  intros Hs Hh. unfold after_rejection, session_step. destruct (is_401 e).
  - right. left. simpl. rewrite Hs. auto.
  - left. auto.
Qed.

Lemma bind_api_request_step {B} m url d headers (k : response -> M B) E w0 w :
  localStorage w0 = localStorage w -> location_href w0 = location_href w ->
  (forall a E1 w1,
     localStorage (snd (k a E1 w1)) = localStorage w1 /\
     location_href (snd (k a E1 w1)) = location_href w1) ->
  session_step w (snd (bind (api.request m url d headers) k E w0)).
Proof.
  intros Hs Hh Hk. unfold bind. rewrite api_request_run. cbv zeta.
  destruct (transport E _) as [r|e].
  - left. destruct (Hk r E (emit (EvRequest (sent_config E w0 m url d headers)) w0))
      as [Hk1 Hk2].
    rewrite Hk1, Hk2. simpl. auto.
  - cbn [snd]. apply after_rejection_step; simpl; assumption.
Qed.

Lemma facade_session_step o E w : session_step w (snd (run_op o E w)).
Proof.
  destruct o; simpl run_op;
    try (unfold userService.getUsers,
           userService.getUserById, userService.updateUser, userService.deleteUser,
           requestService.getRequests, requestService.getRequestById,
           requestService.updateRequest, requestService.deleteRequest,
           requestImageService.getImagesByRequestId, requestImageService.addImage,
           requestImageService.uploadImage, requestImageService.deleteImage,
           proposalService.getProposals, proposalService.createProposal,
           proposalService.updateProposal, chatService.getMessages,
           chatService.sendMessage,
           api.get, api.post, api.post_with, api.put, api.delete;
         cbv zeta;
         apply bind_api_request_step;
         [reflexivity | reflexivity | intros; split; reflexivity]).
  - (* login *)
    rewrite login_run. cbv zeta.
    destruct (transport E _) as [r|e].
    + destruct (get_prop (data r) "data") as [inner|]; [|left; split; reflexivity].
      destruct (get_prop inner "token") as [token|]; [|left; split; reflexivity].
      destruct (get_prop inner "userData") as [userData|]; [|left; split; reflexivity].
      right. right. do 2 eexists. split; reflexivity.
    + cbn [snd]. apply after_rejection_step; reflexivity.
  - (* register *)
    rewrite register_run. cbv zeta.
    destruct (transport E _) as [r|e].
    + destruct (get_prop (data r) "token") as [token|]; [|left; split; reflexivity].
      destruct (get_prop (data r) "user") as [user|]; [|left; split; reflexivity].
      right. right. do 2 eexists. split; reflexivity.
    + cbn [snd]. apply after_rejection_step; reflexivity.
  - (* logout *)
    right. left. split; [reflexivity | left; reflexivity].
  - (* getCurrentUser *)
    destruct (truthy_item (localStorage w !! "token")) eqn:Htoken.
    + rewrite (getCurrentUser_run E w Htoken). cbv zeta.
      destruct (transport E _) as [r|e]; [left; split; reflexivity|].
      right. left. unfold after_rejection. destruct (is_401 e); simpl.
      * split; [apply clear_twice | right; reflexivity].
      * split; [reflexivity | left; reflexivity].
    + rewrite (getCurrentUser_without_token E w Htoken). left. split; reflexivity.
  - (* createRequest *)
    destruct requestData as [|v|fd].
    + unfold requestService.createRequest. simpl instanceof_FormData. cbv iota.
      unfold bind at 1, console, effect, api.post.
      apply bind_api_request_step;
        [reflexivity | reflexivity | intros; split; reflexivity].
    + unfold requestService.createRequest. simpl instanceof_FormData. cbv iota.
      unfold bind at 1, console, effect, api.post.
      apply bind_api_request_step;
        [reflexivity | reflexivity | intros; split; reflexivity].
    + rewrite createRequest_form_run. cbv zeta.
      destruct (transport E _) as [r|e]; left; split; reflexivity.
Qed.

(** X7. Whatever the backend answers, a façade operation leaves every entry
    of local storage other than token and user as it was; it writes or
    removes the two together, so that if they were there together or not at
    all before the operation they are so after it; and it moves
    window.location.href nowhere but to /auth, and only with both entries
    removed. *)
Theorem X7_facades_keep_the_session_entries_together
    (o : facade_op) (E : env) (w : world) :
  (forall k, k <> "token" -> k <> "user" ->
     localStorage (snd (run_op o E w)) !! k = localStorage w !! k) /\
  (paired (localStorage w) -> paired (localStorage (snd (run_op o E w)))) /\
  (location_href (snd (run_op o E w)) = location_href w \/
   (location_href (snd (run_op o E w)) = "/auth" /\
    localStorage (snd (run_op o E w)) !! "token" = None /\
    localStorage (snd (run_op o E w)) !! "user" = None)).
Proof.
  destruct (facade_session_step o E w)
    as [[Hs Hh] | [[Hs Hh] | (t & u & Hs & Hh)]]; rewrite Hs.
  - split; [reflexivity|]. split; [exact id | left; exact Hh].
  - split; [intros k Ht Hu; apply other_keys_after_clear; assumption|].
    split.
    + intros _. unfold paired. rewrite cleared_token, cleared_user. reflexivity.
    + destruct Hh as [Hh|Hh]; [left; exact Hh|].
      right. auto using cleared_token, cleared_user.
  - split; [intros k Ht Hu; apply other_keys_after_store; assumption|].
    split; [|left; exact Hh].
    intros _. unfold paired.
    rewrite lookup_insert_eq, lookup_insert_ne, lookup_insert_eq by discriminate.
    split; intros _; eexists; reflexivity.
Qed.

Lemma X7_witness :
  localStorage (snd (run_op (OpLogin "a@b.com" "pw") (failing_env (http_error 401))
                       themed_world)) !! "theme" = Some "dark" /\
  paired (localStorage (snd (run_op (OpLogin "a@b.com" "pw")
                               (failing_env (http_error 401)) themed_world))).
Proof.
  destruct (X7_facades_keep_the_session_entries_together
              (OpLogin "a@b.com" "pw") (failing_env (http_error 401)) themed_world)
    as (Hother & Hpaired & _).
  split.
  - rewrite (Hother "theme") by discriminate. reflexivity.
  - apply Hpaired. unfold paired. split; intros _; eexists; reflexivity.
Defined.

(** ** One request per operation *)

Lemma no_request_filter evs :
  Forall (fun ev => not_request ev = true) evs -> filter is_request evs = [].
Proof.
  induction 1 as [|ev evs Hev _ IH]; [reflexivity|].
  rewrite filter_cons_False; [exact IH|].
  unfold not_request in Hev. destruct (is_request ev); [discriminate | exact id].
Qed.

Lemma bind_api_request_one {B} m url d headers (k : response -> M B) E w :
  (forall a, emits_only not_request (k a)) ->
  exists evs,
    emitted w (snd (bind (api.request m url d headers) k E w)) evs /\
    filter is_request evs = [EvRequest (sent_config E w m url d headers)].
Proof.
  intros Hk. unfold bind. rewrite api_request_run. cbv zeta.
  destruct (transport E _) as [r|e].
  - destruct (Hk r E (emit (EvRequest (sent_config E w m url d headers)) w))
      as (evs & Hevs & Hnone).
    exists (evs ++ [EvRequest (sent_config E w m url d headers)])%list. split.
    + apply emitted_cons_after, Hevs.
    + rewrite filter_app, (no_request_filter evs Hnone). reflexivity.
  - destruct (failed_call_emitted e (sent_config E w m url d headers) w)
      as (evs & Hevs & Hreq & _).
    exists evs. split; assumption.
Qed.

(* The requests of an operation: none, or one that carries the stored token. *)
Lemma facade_requests o E w :
  exists evs,
    emitted w (snd (run_op o E w)) evs /\
    ((filter is_request evs = [] /\ expected_requests o w = 0) \/
     (exists c,
        filter is_request evs = [EvRequest c] /\ expected_requests o w = 1 /\
        targets_base E c /\
        forall t, localStorage w !! "token" = Some t -> t <> EmptyString ->
                  carries_token t c)).
Proof.
  assert (Hsent : forall w0 m url d headers,
            localStorage w0 = localStorage w ->
            targets_base E (sent_config E w0 m url d headers) /\
            forall t, localStorage w !! "token" = Some t -> t <> EmptyString ->
                      carries_token t (sent_config E w0 m url d headers)).
  { intros w0 m url d headers Hs. split.
    - left. unfold sent_config.
      destruct (truthy_item (localStorage w0 !! "token")); reflexivity.
    - intros t Ht Hne. apply sent_config_authorization;
        [rewrite Hs; exact Ht | exact Hne]. }
  destruct o; simpl run_op;
    try (unfold authService.login, authService.register, userService.getUsers,
           userService.getUserById, userService.updateUser, userService.deleteUser,
           requestService.getRequests, requestService.getRequestById,
           requestService.updateRequest, requestService.deleteRequest,
           requestImageService.getImagesByRequestId, requestImageService.addImage,
           requestImageService.uploadImage, requestImageService.deleteImage,
           proposalService.getProposals, proposalService.createProposal,
           proposalService.updateProposal, chatService.getMessages,
           chatService.sendMessage,
           api.get, api.post, api.post_with, api.put, api.delete;
         cbv zeta;
         match goal with
         | |- context [bind (api.request ?m ?url ?d ?h) ?k E w] =>
             let Hk := fresh "Hk" in
             assert (Hk : forall a, emits_only not_request (k a))
               by (intros; cbv beta; repeat emits_step);
             destruct (bind_api_request_one m url d h k E w Hk) as (evs & Hevs & Hreq);
             exists evs; split; [exact Hevs|]; right; eexists;
             split; [exact Hreq|]; split; [reflexivity|];
             apply Hsent; reflexivity
         end).
  - (* logout *)
    exists [EvRemoveItem "user"; EvRemoveItem "token"].
    split; [reflexivity|]. left. split; reflexivity.
  - (* getCurrentUser *)
    unfold expected_requests.
    destruct (truthy_item (localStorage w !! "token")) eqn:Htoken.
    + rewrite (getCurrentUser_run E w Htoken). cbv zeta.
      destruct (transport E _) as [r|e].
      * exists [EvRequest (sent_config E w GET "/auth/me" NoData ∅)].
        split; [reflexivity|]. right. eexists. split; [reflexivity|].
        split; [reflexivity|]. apply Hsent; reflexivity.
      * destruct (failed_call_emitted e (sent_config E w GET "/auth/me" NoData ∅) w)
          as (evs & Hevs & Hreq & _).
        exists (EvRemoveItem "user" :: EvRemoveItem "token" :: evs). split.
        { unfold emitted in *. simpl. rewrite Hevs. reflexivity. }
        right. eexists. split.
        { rewrite filter_cons_False by (simpl; tauto).
          rewrite filter_cons_False by (simpl; tauto). exact Hreq. }
        split; [reflexivity|]. apply Hsent; reflexivity.
    + rewrite (getCurrentUser_without_token E w Htoken).
      exists []. split; [reflexivity|]. left. split; reflexivity.
  - (* createRequest *)
    assert (Hjson : forall requestData,
              instanceof_FormData requestData = false ->
              exists evs,
                emitted w (snd (requestService.createRequest requestData E w)) evs /\
                filter is_request evs =
                  [EvRequest (sent_config E (emit (EvConsole "api") w) POST
                                "/customization-requests" requestData ∅)]).
    { intros rd Hrd. unfold requestService.createRequest. rewrite Hrd.
      unfold bind at 1. unfold console at 1. unfold effect at 1. unfold api.post.
      match goal with
      | |- context [bind (api.request ?m ?url ?d ?h) ?k E ?w0] =>
          let Hk := fresh "Hk" in
          assert (Hk : forall a, emits_only not_request (k a))
            by (intros; cbv beta; repeat emits_step);
          destruct (bind_api_request_one m url d h k E w0 Hk) as (evs & Hevs & Hreq)
      end.
      exists (evs ++ [EvConsole "api"])%list. split.
      - apply emitted_cons_after, Hevs.
      - rewrite filter_app, Hreq. reflexivity. }
    destruct requestData as [|v|fd].
    + destruct (Hjson NoData eq_refl) as (evs & Hevs & Hreq).
      exists evs. split; [exact Hevs|]. right. eexists. split; [exact Hreq|].
      split; [reflexivity|]. apply Hsent; reflexivity.
    + destruct (Hjson (JsonData v) eq_refl) as (evs & Hevs & Hreq).
      exists evs. split; [exact Hevs|]. right. eexists. split; [exact Hreq|].
      split; [reflexivity|]. apply Hsent; reflexivity.
    + rewrite createRequest_form_run. cbv zeta.
      assert (Hform : forall t, localStorage w !! "token" = Some t ->
                t <> EmptyString ->
                carries_token t (form_request_config E w (FormDataPayload fd))).
      { intros t Ht Hne. unfold carries_token, form_request_config. simpl.
        rewrite Ht, (truthy_item_Some t Hne). apply lookup_singleton_eq. }
      destruct (transport E _) as [r|e].
      * exists [EvConsole "requests";
                EvRequest (form_request_config E w (FormDataPayload fd));
                EvConsole "api"].
        split; [reflexivity|]. right. eexists. split; [reflexivity|].
        split; [reflexivity|]. split; [|exact Hform].
        right. split; [reflexivity|]. eexists. reflexivity.
      * exists [EvConsole "Error uploading images:";
                EvRequest (form_request_config E w (FormDataPayload fd));
                EvConsole "api"].
        split; [reflexivity|]. right. eexists. split; [reflexivity|].
        split; [reflexivity|]. split; [|exact Hform].
        right. split; [reflexivity|]. eexists. reflexivity.
Qed.



(** ** The handlers of the auth page, path by path *)

(** X9. The login handler never rejects and shows exactly one notification.
    When authService.login resolves, the handler puts the returned profile
    in the user state, shows Login successful and navigates to /, in that
    order.  When it rejects, the handler shows the destructive Login failed,
    with the message of the error when it is an Error and Invalid
    credentials otherwise, leaves the user state as it was and does not
    navigate. *)
Theorem X9_handleLogin_settles_with_one_notification
    (E : env) (w : world) (email password : string) :
  exists w' evs,
    handleLogin email password E w = (Fulfilled tt, w') /\
    emitted w w' evs /\
    match fst (authService.login email password E (submitting w)) with
    | Fulfilled userData =>
        user w' = userData /\
        (exists earlier,
           evs = (EvNavigate "/"
                  :: EvToast "Login successful" "Welcome back to StyleVerse." false
                  :: EvSetUser userData :: earlier)%list /\
           filter is_toast earlier = [] /\ filter is_navigate earlier = [])
    | Rejected e =>
        user w' = user w /\
        filter is_toast evs =
          [EvToast "Login failed" (error_description e "Invalid credentials") true] /\
        filter is_navigate evs = [] /\
        filter is_setUser evs = []
    end.
Proof.
  unfold handleLogin. unfold bind at 1. unfold setLoading at 1, effect at 1.
  fold (submitting w).
  unfold try_catch, then_. unfold bind at 1.
  rewrite login_run. cbv zeta.
  destruct (transport E _) as [r|e].
  - destruct (get_prop (data r) "data") as [inner|].
    + destruct (get_prop inner "token") as [token|].
      * destruct (get_prop inner "userData") as [userData|].
        -- do 2 eexists. split; [reflexivity|]. split; [unfold submitting; read_events|].
           cbn [fst]. split; [reflexivity|]. eexists. repeat split.
        -- do 2 eexists. split; [reflexivity|]. split; [unfold submitting; read_events|].
           repeat split.
      * do 2 eexists. split; [reflexivity|]. split; [unfold submitting; read_events|].
        repeat split.
    + do 2 eexists. split; [reflexivity|]. split; [unfold submitting; read_events|].
      repeat split.
  - unfold after_rejection. destruct (is_401 e).
    + do 2 eexists. split; [reflexivity|]. split; [unfold submitting; read_events|].
      repeat split.
    + do 2 eexists. split; [reflexivity|]. split; [unfold submitting; read_events|].
      repeat split.
Qed.

Lemma handleRegister_one_fetch E w name email password r :
  exists evs,
    emitted w (snd (handleRegister name email password r E w)) evs /\
    filter is_fetch evs = [EvFetch (register_fetch E name email password r)].
Proof.
  rewrite handleRegister_fetch. cbv zeta.
  destruct (fetch_backend E _) as [resp|e].
  - destruct (fr_ok resp).
    + eexists. split; [read_events | reflexivity].
    + destruct (fr_json resp) as [errorData|e].
      * destruct (get_prop errorData "message") as [msg|];
          eexists; (split; [read_events | reflexivity]).
      * eexists. split; [read_events | reflexivity].
  - eexists. split; [read_events | reflexivity].
Qed.



(** ** Filters, getCurrentUser and the empty token *)

Lemma filter_params_app filters filters' :
  filter_params (filters ++ filters') =
  (filter_params filters ++ filter_params filters')%list.
Proof.
  rewrite !filter_params_spec, List.filter_app, map_app. reflexivity.
Qed.

Lemma filter_params_keys_sublist filters :
  sublist (map fst (filter_params filters)) (map fst filters).
Proof.
  rewrite filter_params_spec.
  induction filters as [|[k v] rest IH]; simpl; [constructor|].
  destruct (truthy v); simpl.
  - apply sublist_skip, IH.
  - apply sublist_cons, IH.
Qed.

Lemma filter_params_nil filters :
  filter_params filters = [] <->
  (forall entry, In entry filters -> truthy (snd entry) = false).
Proof.
  rewrite filter_params_spec. split.
  - intros Hnil entry Hin. destruct (truthy (snd entry)) eqn:Htruthy; [|reflexivity].
    assert (Hparam : In (entry_param entry)
                       (map entry_param
                          (List.filter (fun entry => truthy (snd entry)) filters))).
    { apply in_map, filter_In. split; assumption. }
    rewrite Hnil in Hparam. destruct Hparam.
  - intros Hfalsy. induction filters as [|entry rest IH]; [reflexivity|].
    simpl. rewrite (Hfalsy entry) by (left; reflexivity).
    apply IH. intros entry' Hin. apply Hfalsy. right. exact Hin.
Qed.

(** X11. The query parameters follow the filter object: they keep the order
    of its keys, the parameters of two filter lists put one after the other
    are the parameters of the first followed by those of the second, and
    there is no parameter exactly when every value is falsy.  In that case,
    in particular for the default empty filter object, getRequests and
    getProposals still append the question mark: they request
    /customization-requests? and /designer-proposals?. *)
Theorem X11_filters_order_and_the_empty_query
    (E : env) (w : world) (filters filters' : list (string * value)) :
  filter_params (filters ++ filters') =
    (filter_params filters ++ filter_params filters')%list /\
  sublist (map fst (filter_params filters)) (map fst filters) /\
  (filter_params filters = [] <->
   (forall entry, In entry filters -> truthy (snd entry) = false)) /\
  ((forall entry, In entry filters -> truthy (snd entry) = false) ->
   In (EvRequest (sent_config E w GET "/customization-requests?" NoData ∅))
      (log (snd (requestService.getRequests filters E w))) /\
   In (EvRequest (sent_config E w GET "/designer-proposals?" NoData ∅))
      (log (snd (proposalService.getProposals filters E w)))).
Proof.
  split; [apply filter_params_app|]. split; [apply filter_params_keys_sublist|].
  split; [apply filter_params_nil|].
  intros Hfalsy. apply filter_params_nil in Hfalsy.
  unfold requestService.getRequests, proposalService.getProposals. cbv zeta.
  rewrite Hfalsy. split; apply api_get_data_logged.
Qed.

Lemma X11_witness :
  In (EvRequest (sent_config accepting_env fresh_world GET "/customization-requests?"
                   NoData ∅))
     (log (snd (requestService.getRequests
                  [("q", VStr EmptyString); ("page", VNum zero)]
                  accepting_env fresh_world))) /\
  In (EvRequest (sent_config accepting_env fresh_world GET "/designer-proposals?"
                   NoData ∅))
     (log (snd (proposalService.getProposals
                  [("q", VStr EmptyString); ("page", VNum zero)]
                  accepting_env fresh_world))).
Proof.
  apply (X11_filters_order_and_the_empty_query accepting_env fresh_world
           [("q", VStr EmptyString); ("page", VNum zero)] []).
  intros entry [<-|[<-|[]]]; reflexivity.
Defined.

(** X12. With a token stored and a successful GET of /auth/me,
    getCurrentUser resolves to response.data, whatever it is, after one
    request to /auth/me on the base URL that carries the token, and leaves
    local storage and window.location.href as they are. *)
Theorem X12_getCurrentUser_returns_the_response_data
    (E : env) (w : world) (t : string) (r : response) :
  localStorage w !! "token" = Some t ->
  t <> EmptyString ->
  transport E (sent_config E w GET "/auth/me" NoData ∅) = Fulfilled r ->
  exists c,
    authService.getCurrentUser E w = (Fulfilled (data r), emit (EvRequest c) w) /\
    cfg_method c = GET /\ cfg_baseURL c = Some (API_URL E) /\
    cfg_url c = "/auth/me" /\ cfg_data c = NoData /\
    carries_token t c /\
    localStorage (snd (authService.getCurrentUser E w)) = localStorage w /\
    location_href (snd (authService.getCurrentUser E w)) = location_href w.
Proof.
  intros Ht Hne Hnet.
  assert (Htruthy : truthy_item (localStorage w !! "token") = true).
  { rewrite Ht. apply truthy_item_Some, Hne. }
  pose proof (getCurrentUser_run E w Htruthy) as Hrun. cbv zeta in Hrun.
  rewrite Hnet in Hrun.
  exists (sent_config E w GET "/auth/me" NoData ∅). rewrite Hrun.
  split; [reflexivity|].
  unfold sent_config. rewrite Htruthy. simpl.
  repeat split. unfold carries_token. simpl. rewrite Ht. apply lookup_insert_eq.
Qed.

Lemma X12_witness :
  exists c,
    authService.getCurrentUser accepting_env signed_in_world
      = (Fulfilled (VArr []), emit (EvRequest c) signed_in_world) /\
    cfg_url c = "/auth/me" /\ carries_token "t0" c.
Proof.
  destruct (X12_getCurrentUser_returns_the_response_data
              accepting_env signed_in_world "t0" {| status := 200; data := VArr [] |})
    as (c & Hrun & _ & _ & Hurl & _ & Htoken & _);
    [reflexivity | discriminate | reflexivity |].
  exists c. repeat split; assumption.
Defined.

Lemma empty_token_is_no_token E w :
  localStorage w !! "token" = Some EmptyString ->
  authService.getCurrentUser E w = (Fulfilled VNull, w) /\
  (forall m url d headers,
     sent_config E w m url d headers =
     {| cfg_method := m; cfg_baseURL := Some (API_URL E); cfg_url := url;
        cfg_headers := headers ∪ default_headers; cfg_data := d |}) /\
  (forall requestData, cfg_headers (form_request_config E w requestData) = ∅).
Proof.
  intros Ht.
  assert (Hfalsy : truthy_item (localStorage w !! "token") = false)
    by (rewrite Ht; reflexivity).
  split; [apply getCurrentUser_without_token, Hfalsy|]. split.
  - intros m url d headers. apply sent_config_without_token, Hfalsy.
  - intros requestData. unfold form_request_config. simpl. rewrite Hfalsy.
    reflexivity.
Qed.

(** X13. A login whose response holds the empty string as token resolves and
    stores the profile, but leaves the client signed out: the token entry is
    the empty string, which every reader of the token treats as no token.
    getCurrentUser answers null without a request, the request interceptor
    adds no Authorization header, and createRequest with a FormData payload
    sends no header at all. *)
Theorem X13_login_with_an_empty_token_signs_nobody_in
    (E : env) (w : world) (email password : string) (r : response)
    (inner userData : value) :
  transport E (sent_config E w POST "/auth/login" (login_body email password) ∅)
    = Fulfilled r ->
  get_prop (data r) "data" = Some inner ->
  get_prop inner "token" = Some (VStr EmptyString) ->
  get_prop inner "userData" = Some userData ->
  exists w1,
    authService.login email password E w = (Fulfilled userData, w1) /\
    localStorage w1 !! "user" = Some (stringified userData) /\
    localStorage w1 !! "token" = Some EmptyString /\
    authService.getCurrentUser E w1 = (Fulfilled VNull, w1) /\
    (forall m url d headers,
       cfg_headers (sent_config E w1 m url d headers) = headers ∪ default_headers) /\
    (forall requestData, cfg_headers (form_request_config E w1 requestData) = ∅).
Proof.
  intros Hnet Hdata Htoken Huser.
  eexists. split.
  - apply (login_fulfilled E w email password r inner (VStr EmptyString) userData);
      assumption.
  - cbn [to_string].
    match goal with
    | |- context [session_stored EmptyString ?u ?w0] =>
        destruct (empty_token_is_no_token E (session_stored EmptyString u w0)
                    (session_stored_token EmptyString u w0))
          as (Hme & Hsent & Hform)
    end.
    split; [apply session_stored_user|]. split; [apply session_stored_token|].
    split; [exact Hme|]. split; [|exact Hform].
    intros m url d headers. rewrite Hsent. reflexivity.
Qed.

Lemma X13_witness :
  exists w1,
    authService.login "a@b.com" "pw" empty_token_env fresh_world
      = (Fulfilled scenario_profile, w1) /\
    localStorage w1 !! "token" = Some EmptyString /\
    authService.getCurrentUser empty_token_env w1 = (Fulfilled VNull, w1) /\
    cfg_headers (sent_config empty_token_env w1 GET "/users" NoData ∅)
      !! "Authorization" = None.
Proof.
  destruct (X13_login_with_an_empty_token_signs_nobody_in
              empty_token_env fresh_world "a@b.com" "pw"
              {| status := 200;
                 data := VObj [("data", VObj [("token", VStr EmptyString);
                                              ("userData", scenario_profile)])] |}
              (VObj [("token", VStr EmptyString); ("userData", scenario_profile)])
              scenario_profile eq_refl eq_refl eq_refl eq_refl)
    as (w1 & Hrun & _ & Htoken & Hme & Hsent & _).
  exists w1. split; [exact Hrun|]. split; [exact Htoken|]. split; [exact Hme|].
  rewrite Hsent. reflexivity.
Defined.

(** ** The base URL; signing in and out *)

Lemma API_URL_cases E :
  (forall s, VITE_API_URL E = Some s -> s <> EmptyString -> API_URL E = s) /\
  (VITE_API_URL E = None -> API_URL E = "http://localhost:8000/api") /\
  (VITE_API_URL E = Some EmptyString -> API_URL E = "http://localhost:8000/api") /\
  API_URL E <> EmptyString.
Proof.
  unfold API_URL. repeat split.
  - intros s -> Hs. rewrite (truthy_item_Some s Hs). reflexivity.
  - intros ->. reflexivity.
  - intros ->. reflexivity.
  - destruct (VITE_API_URL E) as [[|c s]|]; discriminate.
Qed.

(** X14. The base URL is the variable VITE_API_URL when it is set to a
    non-empty string and http://localhost:8000/api otherwise, also when the
    variable is set to the empty string; it is never empty.  Every request of
    every façade operation goes to it, as the baseURL of the shared client or
    written in front of the path, and so does the fetch of the register
    handler. *)
Theorem X14_every_call_targets_the_base_URL (E : env) :
  (forall s, VITE_API_URL E = Some s -> s <> EmptyString -> API_URL E = s) /\
  (VITE_API_URL E = None -> API_URL E = "http://localhost:8000/api") /\
  (VITE_API_URL E = Some EmptyString -> API_URL E = "http://localhost:8000/api") /\
  API_URL E <> EmptyString /\
  (forall o w, exists evs,
     emitted w (snd (run_op o E w)) evs /\
     forall c, In (EvRequest c) evs -> targets_base E c) /\
  (forall name email password r w, exists evs,
     emitted w (snd (handleRegister name email password r E w)) evs /\
     forall q, In (EvFetch q) evs -> fq_url q = API_URL E +:+ "/auth/register").
Proof.
  destruct (API_URL_cases E) as (Hset & Hunset & Hempty & Hne).
  split; [exact Hset|]. split; [exact Hunset|]. split; [exact Hempty|].
  split; [exact Hne|]. split.
  - intros o w.
    destruct (facade_requests o E w)
      as (evs & Hevs & [[Hnone _] | (c0 & Hone & _ & Hbase & _)]);
      exists evs; (split; [exact Hevs|]); intros c Hin;
      apply list_elem_of_In in Hin;
      assert (Hf : EvRequest c ∈ filter is_request evs)
        by (apply list_elem_of_filter; split; [exact I | exact Hin]).
    + rewrite Hnone in Hf. inversion Hf.
    + rewrite Hone in Hf. apply list_elem_of_singleton in Hf.
      injection Hf as ->. exact Hbase.
  - intros name email password r w.
    destruct (handleRegister_one_fetch E w name email password r) as (evs & Hevs & Hfetch).
    exists evs. split; [exact Hevs|]. intros q Hin.
    apply list_elem_of_In in Hin.
    assert (Hf : EvFetch q ∈ filter is_fetch evs)
      by (apply list_elem_of_filter; split; [exact I | exact Hin]).
    rewrite Hfetch in Hf. apply list_elem_of_singleton in Hf.
    injection Hf as ->. reflexivity.
Qed.

Lemma X14_witness :
  API_URL (env_with_base (Some "https://api.styleverse.example"))
    = "https://api.styleverse.example" /\
  API_URL (env_with_base None) = "http://localhost:8000/api" /\
  API_URL (env_with_base (Some EmptyString)) = "http://localhost:8000/api".
Proof.
  split; [|split].
  - apply (proj1 (X14_every_call_targets_the_base_URL
                    (env_with_base (Some "https://api.styleverse.example")))
             "https://api.styleverse.example"); [reflexivity | discriminate].
  - apply (proj1 (proj2 (X14_every_call_targets_the_base_URL (env_with_base None)))).
    reflexivity.
  - apply (proj1 (proj2 (proj2 (X14_every_call_targets_the_base_URL
                                  (env_with_base (Some EmptyString)))))).
    reflexivity.
Defined.




(** ** Numbers as the client sees them *)

Example stringify_large_number :
  stringify large_profile = Some ("{" +:+ dq +:+ "id" +:+ dq +:+ ":1e+21}").
Proof. reflexivity. Qed.

Example stringify_NaN_is_null :
  stringify (VArr [VNum NaN; VNum (num "0.5")]) = Some "[null,0.5]".
Proof. reflexivity. Qed.

Example login_stores_large_number_as_printed :
  localStorage
    (snd (authService.login "a@b.com" "pw"
            {| VITE_API_URL := None;
               transport := fun _ =>
                 Fulfilled {| status := 200;
                              data := VObj [("data",
                                VObj [("token", VStr "t1");
                                      ("userData", large_profile)])] |};
               fetch_backend := fun _ => Rejected network_error |} fresh_world))
    !! "user" = Some ("{" +:+ dq +:+ "id" +:+ dq +:+ ":1e+21}").
Proof. vm_compute. reflexivity. Qed.

Example register_toast_of_a_numeric_message :
  filter is_toast
    (log (snd (handleRegister "Ada" "ada@example.com" "pw" designer
                 (refusing_env (VObj [("message", VNum (num "1e+21"))]))
                 fresh_world)))
  = [EvToast "Registration failed" "1e+21" true].
Proof. vm_compute. reflexivity. Qed.

Example NaN_filter_is_left_out :
  filter_params [("page", VNum NaN); ("limit", VNum (num "1e+21"))]
  = [("limit", "1e+21")].
Proof. reflexivity. Qed.

Example getUserById_large_id :
  request_of (OpGetUserById (num "1e+21")) accepting_env fresh_world
  = Some (sent_config accepting_env fresh_world GET "/users?userId=1e+21" NoData ∅).
Proof. reflexivity. Qed.

Example occurs_finds_the_encoded_value :
  occurs "a+b%26c" "q=a+b%26c" = true /\ occurs "a b&c" "q=a b&c" = true.
Proof. split; reflexivity. Qed.
